(** * Discount validity, pricing resolution and discount management

    A shallow embedding of the discount/pricing core of the e-commerce API:

    - [BaseRepository]            (database/repositories/base.repository.ts)
    - [DiscountRepository]        (database/repositories/discount.repository.ts)
    - [ProductDiscountRepository] (database/repositories/product-discount.repository.ts)
    - [DiscountsService]          (modules/discounts/discounts.service.ts)
    - [ProductsService]           (modules/products/products.service.ts)

    Modelling conventions.
    - A JavaScript [number] is an exact rational ([Q]); the rounding of IEEE
      doubles, NaN and the infinities are outside the model.
    - A [Date] is its [valueOf()], an integer count of milliseconds ([Z]);
      [a <= b] on dates is [<=] on those integers.  The DTO date strings have
      passed [@IsDateString()], so [new Date(s)] is represented by the
      timestamp it denotes.
    - An ObjectId is the string the code compares and prints.  The ids
      handed to the services are taken to be well-formed; for a malformed id
      the driver throws a CastError, which the model does not represent, so
      the statements about ids that are not stored assume [isObjectId].
    - Repository reads end in [.lean()]: the documents they return carry
      [_id] but no [id] virtual ([BaseRepository.leanId]).
    - Strings are compared as the program stores them.  The schema setter
      [trim] and the case mapping outside ASCII are not part of the model;
      they are the identity on [plain] strings, and the statements that
      depend on the stored form of a request string assume it is [plain].
    - A collection is the list of its documents in natural (insertion) order;
      [findOne] returns the first match, [find] all matches in that order.
    - [new Date()] (the wall clock) is the parameter [now]; the readings the
      validity filter takes for the discounts of one product are taken to be
      the same instant. *)

From Stdlib Require Import ZArith QArith Qminmax List String Ascii Bool Lia Lqa.
Import ListNotations.

Local Open Scope Q_scope.

(** ** JavaScript helpers *)

(** [a > b] on numbers, as a boolean. *)
Definition Qgtb (a b : Q) : bool := negb (Qle_bool a b).

(** Truthiness of a number: every number but 0 is truthy. *)
Definition truthyNumber (n : Q) : bool := negb (Qeq_bool n 0).

(** Truthiness of a string: every string but the empty one is truthy. *)
Definition truthyString (s : string) : bool :=
  match s with EmptyString => false | String _ _ => true end.

Definition upperAscii (c : ascii) : ascii :=
  let n := nat_of_ascii c in
  if ((97 <=? n)%nat && (n <=? 122)%nat)%bool then ascii_of_nat (n - 32) else c.

(** [String.prototype.toUpperCase] on ASCII text. *)
Fixpoint toUpperCase (s : string) : string :=
  match s with
  | EmptyString => EmptyString
  | String c r => String (upperAscii c) (toUpperCase r)
  end.

(** [a !== b] where [a] may be [undefined]. *)
Definition strictNotEqual (a : option string) (b : string) : bool :=
  match a with
  | Some x => negb (String.eqb x b)
  | None => true
  end.

(** ** Schemas *)

Definition ObjectId := string.
Definition Date := Z.

(** database/schemas/discount.schema.ts *)
Inductive DiscountType := PERCENTAGE | FIXED_AMOUNT.

Record Discount := mkDiscount {
  d_id : ObjectId;
  d_code : option string;
  d_name : string;
  d_discountType : DiscountType;
  d_value : Q;
  d_startDate : Date;
  d_endDate : Date;
  d_isActive : bool;
  d_maxUsageCount : option Q;
  d_usageCount : Q
}.

(** database/schemas/product-discount.schema.ts *)
Record ProductDiscount := mkProductDiscount {
  pd_id : ObjectId;
  pd_productId : ObjectId;
  pd_productItemId : option ObjectId;
  pd_discountId : ObjectId;
  pd_isActive : bool
}.

(** database/schemas/product.schema.ts *)
Record Product := mkProduct {
  p_id : ObjectId;
  p_name : string;
  p_slug : string;
  p_description : string;
  p_basePrice : Q;
  p_categoryId : ObjectId;
  p_sku : string;
  p_isActive : bool
}.

(** The three collections the pricing core reads and the discount
    management endpoints write. *)
Record Db := mkDb {
  products : list Product;
  discounts : list Discount;
  productDiscounts : list ProductDiscount
}.

(** ** BaseRepository *)

Module BaseRepository.
Section Collection.
Variable T : Type.
Variable idOf : T -> ObjectId.

(** [findOne(filter)]: the first document the filter accepts, or null. *)
Definition findOne (filter : T -> bool) (coll : list T) : option T :=
  find filter coll.

(** [findAll(filter)]: every document the filter accepts. *)
Definition findAll (filter : T -> bool) (coll : list T) : list T :=
  List.filter filter coll.

(** [findById(id)]. *)
Definition findById (id : ObjectId) (coll : list T) : option T :=
  find (fun doc => String.eqb (idOf doc) id) coll.

(** [findByIdAndDelete]: removes the document with that id, yields it. *)
Fixpoint findByIdAndDelete (id : ObjectId) (coll : list T) : option T * list T :=
  match coll with
  | [] => (None, [])
  | doc :: rest =>
      if String.eqb (idOf doc) id then (Some doc, rest)
      else let '(r, rest') := findByIdAndDelete id rest in (r, doc :: rest')
  end.

(** [delete(id)]: [result !== null], and the collection afterwards. *)
Definition delete (id : ObjectId) (coll : list T) : bool * list T :=
  let '(result, coll') := findByIdAndDelete id coll in
  (match result with Some _ => true | None => false end, coll').

(** [findByIdAndUpdate(id, data, { new: true })]: the document with that id
    is replaced by its updated version, which is returned. *)
Fixpoint findByIdAndUpdate (id : ObjectId) (data : T -> T) (coll : list T)
  : option T * list T :=
  match coll with
  | [] => (None, [])
  | doc :: rest =>
      if String.eqb (idOf doc) id then (Some (data doc), data doc :: rest)
      else let '(r, rest') := findByIdAndUpdate id data rest in (r, doc :: rest')
  end.

Definition update := findByIdAndUpdate.

(** [doc.id] of a document a query returned.  The queries of this class end
    in [.lean()], so their results are plain objects: they carry [_id] (here
    [idOf]) but no virtuals, and [doc.id] is [undefined]. *)
Definition leanId (doc : T) : option ObjectId := None.

(** [delete(id)] for an [id] that may be [undefined]:
    [findByIdAndDelete(undefined)] matches no document. *)
Definition deleteById (id : option ObjectId) (coll : list T) : bool * list T :=
  match id with
  | Some i => delete i coll
  | None => (false, coll)
  end.

(** [create(data)]: the saved document is appended to the collection. *)
Definition create (doc : T) (coll : list T) : T * list T :=
  (doc, coll ++ [doc]).
End Collection.
End BaseRepository.

Arguments BaseRepository.findOne {T}.
Arguments BaseRepository.findAll {T}.
Arguments BaseRepository.findById {T}.
Arguments BaseRepository.findByIdAndDelete {T}.
Arguments BaseRepository.delete {T}.
Arguments BaseRepository.leanId {T}.
Arguments BaseRepository.deleteById {T}.
Arguments BaseRepository.findByIdAndUpdate {T}.
Arguments BaseRepository.update {T}.
Arguments BaseRepository.create {T}.

(** ** DiscountRepository *)

Module DiscountRepository.

Definition findById (id : ObjectId) (db : Db) : option Discount :=
  BaseRepository.findById d_id id (discounts db).

Definition codeIs (c : string) (d : Discount) : bool :=
  match d_code d with Some c' => String.eqb c' c | None => false end.

(** [findByCode(code)]: the filter is [{ code: code.toUpperCase() }].  The
    schema's [trim] setter, which also runs on the filter, is the identity
    on [plain] codes. *)
Definition findByCode (code : string) (db : Db) : option Discount :=
  BaseRepository.findOne (codeIs (toUpperCase code)) (discounts db).

Definition findActiveDiscounts (now : Date) (db : Db) : list Discount :=
  BaseRepository.findAll
    (fun d => d_isActive d && (d_startDate d <=? now)%Z && (now <=? d_endDate d)%Z)
    (discounts db).

(** [isDiscountValid(discountId)] *)
Definition isDiscountValid (now : Date) (discountId : ObjectId) (db : Db) : bool :=
  match findById discountId db with
  | None => false
  | Some discount =>
      if negb (d_isActive discount) then false
      else if ((d_startDate discount >? now)%Z || (d_endDate discount <? now)%Z)%bool
      then false
      else
        match d_maxUsageCount discount with
        | Some maxUsageCount =>
            if (truthyNumber maxUsageCount
                && Qle_bool maxUsageCount (d_usageCount discount))%bool
            then false else true
        | None => true
        end
  end.

End DiscountRepository.

(** ** ProductDiscountRepository *)

Module ProductDiscountRepository.

Definition findByProduct (productId : ObjectId) (db : Db) : list ProductDiscount :=
  BaseRepository.findAll
    (fun pd => String.eqb (pd_productId pd) productId && pd_isActive pd)
    (productDiscounts db).

Definition findByDiscount (discountId : ObjectId) (db : Db) : list ProductDiscount :=
  BaseRepository.findAll
    (fun pd => String.eqb (pd_discountId pd) discountId && pd_isActive pd)
    (productDiscounts db).

(** The filter [{ productId, discountId }]. *)
Definition linkIs (productId discountId : ObjectId) (pd : ProductDiscount) : bool :=
  String.eqb (pd_productId pd) productId && String.eqb (pd_discountId pd) discountId.


(** [unlinkProductFromDiscount]: the link comes from [findOne], a lean
    document, and [delete] is handed its [link.id]. *)
Definition unlinkProductFromDiscount (productId discountId : ObjectId) (db : Db)
  : bool * Db :=
  match BaseRepository.findOne (linkIs productId discountId) (productDiscounts db) with
  | None => (false, db)
  | Some link =>
      let '(deleted, coll) :=
        BaseRepository.deleteById pd_id (BaseRepository.leanId link)
          (productDiscounts db) in
      (deleted, mkDb (products db) (discounts db) coll)
  end.

End ProductDiscountRepository.

(** ** Exceptions and the service monad *)

(** The HTTP exceptions the discount service throws. *)
Inductive HttpException :=
| ConflictException (message : string)
| BadRequestException (message : string)
| NotFoundException (message : string).

Inductive Result (A : Type) :=
| Ok (a : A)
| Throw (e : HttpException).
Arguments Ok {A}.
Arguments Throw {A}.

(** A service method runs against the database and either returns or throws;
    there is no transaction, so whatever was written before a throw stays. *)
Definition Service (A : Type) : Type := Db -> Result A * Db.

Definition ret {A} (a : A) : Service A := fun db => (Ok a, db).
Definition throw {A} (e : HttpException) : Service A := fun db => (Throw e, db).
Definition bind {A B} (m : Service A) (k : A -> Service B) : Service B :=
  fun db =>
    match m db with
    | (Ok a, db') => k a db'
    | (Throw e, db') => (Throw e, db')
    end.
(** A repository read. *)
Definition query {A} (q : Db -> A) : Service A := fun db => (Ok (q db), db).
(** A repository write. *)
Definition exec {A} (w : Db -> A * Db) : Service A :=
  fun db => let '(a, db') := w db in (Ok a, db').

Declare Scope service_scope.
Delimit Scope service_scope with service.
Notation "x <- m ;; k" := (bind m (fun x => k))
  (at level 100, m at next level, right associativity) : service_scope.
Notation "m ;;; k" := (bind m (fun _ => k))
  (at level 100, right associativity) : service_scope.

(** Section 7 of the specification files both the date-ordering and the
    uniqueness violations of discount creation/update under its
    ValidationError kind; in the service they are [BadRequestException] and
    [ConflictException]. *)
Definition isValidationError (e : HttpException) : bool :=
  match e with
  | ConflictException _ | BadRequestException _ => true
  | NotFoundException _ => false
  end.

(** ** DiscountsService *)

(** modules/discounts/dto/create-discount.dto.ts *)
Record CreateDiscountDto := mkCreateDiscountDto {
  c_code : option string;
  c_name : string;
  c_discountType : DiscountType;
  c_value : Q;
  c_startDate : Date;
  c_endDate : Date;
  c_maxUsageCount : option Q
}.

(** modules/discounts/dto/update-discount.dto.ts: every field is optional. *)
Record UpdateDiscountDto := mkUpdateDiscountDto {
  u_code : option string;
  u_name : option string;
  u_discountType : option DiscountType;
  u_value : option Q;
  u_startDate : option Date;
  u_endDate : option Date;
  u_isActive : option bool;
  u_maxUsageCount : option Q
}.

Module DiscountsService.
Local Open Scope service_scope.
Local Open Scope string_scope.

Definition truthyCode (code : option string) : bool :=
  match code with Some c => truthyString c | None => false end.

Definition codeOr (code : option string) : string :=
  match code with Some c => c | None => "" end.

(** The document [discountRepository.create] saves for a creation request:
    the DTO's fields, the upper-cased code, and the schema defaults
    ([isActive: true], [usageCount: 0]).  The schema also trims the code and
    the name, which changes nothing on [plain] strings. *)
Definition newDiscount (newId : ObjectId) (dto : CreateDiscountDto)
    (startDate endDate : Date) : Discount :=
  mkDiscount newId (option_map toUpperCase (c_code dto)) (c_name dto)
    (c_discountType dto) (c_value dto) startDate endDate true
    (c_maxUsageCount dto) 0%Q.

Definition saveDiscount (doc : Discount) (db : Db) : Discount * Db :=
  let '(saved, coll) := BaseRepository.create doc (discounts db) in
  (saved, mkDb (products db) coll (productDiscounts db)).

(** [create(createDiscountDto)]; [newId] is the ObjectId the driver assigns. *)
Definition create (newId : ObjectId) (dto : CreateDiscountDto) : Service Discount :=
  (if truthyCode (c_code dto) then
     existing <- query (DiscountRepository.findByCode (codeOr (c_code dto))) ;;
     match existing with
     | Some _ => throw (ConflictException "Discount with this code already exists")
     | None => ret tt
     end
   else ret tt) ;;;
  let startDate := c_startDate dto in
  let endDate := c_endDate dto in
  if (startDate >=? endDate)%Z then
    throw (BadRequestException "End date must be after start date")
  else
    exec (saveDiscount (newDiscount newId dto startDate endDate)).

(** [findOne(id)], for a well-formed [id]. *)
Definition findOne (id : ObjectId) : Service Discount :=
  discount <- query (DiscountRepository.findById id) ;;
  match discount with
  | None => throw (NotFoundException ("Discount with ID " ++ id ++ " not found"))
  | Some d => ret d
  end.

Definition orElse {A} (o : option A) (a : A) : A :=
  match o with Some x => x | None => a end.

(** The effect of the update document on a stored discount: every field
    the DTO carries replaces the stored one. *)
Definition applyUpdate (dto : UpdateDiscountDto) (d : Discount) : Discount :=
  mkDiscount (d_id d)
    (match u_code dto with Some c => Some c | None => d_code d end)
    (orElse (u_name dto) (d_name d))
    (orElse (u_discountType dto) (d_discountType d))
    (orElse (u_value dto) (d_value d))
    (orElse (u_startDate dto) (d_startDate d))
    (orElse (u_endDate dto) (d_endDate d))
    (orElse (u_isActive dto) (d_isActive d))
    (match u_maxUsageCount dto with Some m => Some m | None => d_maxUsageCount d end)
    (d_usageCount d).

Definition updateDiscount (id : ObjectId) (dto : UpdateDiscountDto) (db : Db)
  : option Discount * Db :=
  let '(updated, coll) := BaseRepository.update d_id id (applyUpdate dto) (discounts db) in
  (updated, mkDb (products db) coll (productDiscounts db)).

Definition withCode (dto : UpdateDiscountDto) (code : option string) : UpdateDiscountDto :=
  mkUpdateDiscountDto code (u_name dto) (u_discountType dto) (u_value dto)
    (u_startDate dto) (u_endDate dto) (u_isActive dto) (u_maxUsageCount dto).

(** [update(id, updateDiscountDto)]; [existing] comes from [findByCode], a
    lean document, so the test [existing.id !== id] compares [undefined]. *)
Definition update (id : ObjectId) (dto : UpdateDiscountDto) : Service Discount :=
  _discount <- findOne id ;;
  dto <- (if truthyCode (u_code dto) then
            existing <- query (DiscountRepository.findByCode (codeOr (u_code dto))) ;;
            match existing with
            | Some existing =>
                if strictNotEqual (BaseRepository.leanId existing) id then
                  throw (ConflictException "Discount with this code already exists")
                else ret (withCode dto (option_map toUpperCase (u_code dto)))
            | None => ret (withCode dto (option_map toUpperCase (u_code dto)))
            end
          else ret dto) ;;
  (match u_startDate dto, u_endDate dto with
   | Some startDate, Some endDate =>
       if (startDate >=? endDate)%Z then
         throw (BadRequestException "End date must be after start date")
       else ret tt
   | _, _ => ret tt
   end) ;;;
  updated <- exec (updateDiscount id dto) ;;
  match updated with
  | None => throw (BadRequestException "Failed to update discount")
  | Some u => ret u
  end.

(** [remove(id)] *)
Definition remove (id : ObjectId) : Service unit :=
  findOne id ;;;
  deleted <- exec (fun db =>
    let '(deleted, coll) := BaseRepository.delete d_id id (discounts db) in
    (deleted, mkDb (products db) coll (productDiscounts db))) ;;
  if negb deleted then throw (BadRequestException "Failed to delete discount")
  else ret tt.


(** [unlinkFromProduct(productId, discountId)] *)
Definition unlinkFromProduct (productId discountId : ObjectId) : Service unit :=
  unlinked <- exec (ProductDiscountRepository.unlinkProductFromDiscount
                      productId discountId) ;;
  if negb unlinked then throw (NotFoundException "Product-Discount link not found")
  else ret tt.

End DiscountsService.

(** ** ProductsService *)

(** An element of [appliedDiscounts]. *)
Record AppliedDiscount := mkAppliedDiscount {
  a_id : ObjectId;
  a_name : string;
  a_discountType : DiscountType;
  a_value : Q
}.

(** modules/products/dto/product-response.dto.ts: [finalPrice] and
    [appliedDiscounts] are the optional fields; [None] is an absent field. *)
Record ProductResponseDto := mkProductResponseDto {
  r_id : ObjectId;
  r_name : string;
  r_slug : string;
  r_description : string;
  r_basePrice : Q;
  r_categoryId : ObjectId;
  r_sku : string;
  r_finalPrice : option Q;
  r_appliedDiscounts : option (list AppliedDiscount)
}.

Module ProductsService.

(** [mapToResponseDto(product, finalPrice, appliedDiscounts)] *)
Definition mapToResponseDto (product : Product) (finalPrice : Q)
    (appliedDiscounts : list AppliedDiscount) : ProductResponseDto :=
  mkProductResponseDto (p_id product) (p_name product) (p_slug product)
    (p_description product) (p_basePrice product) (p_categoryId product)
    (p_sku product)
    (Some finalPrice)
    (if (0 <? List.length appliedDiscounts)%nat then Some appliedDiscounts else None).

(** The filter of "valid and active" discounts of [calculateProductPricing]:
    a null fetch result or an inactive discount is dropped, then the date
    window is tested against the clock. *)
Definition isValidNow (now : Date) (discount : option Discount) : bool :=
  match discount with
  | None => false
  | Some d =>
      if negb (d_isActive d) then false
      else ((d_startDate d <=? now)%Z && (d_endDate d >=? now)%Z)%bool
  end.

Fixpoint present {A} (l : list (option A)) : list A :=
  match l with
  | [] => []
  | Some a :: r => a :: present r
  | None :: r => present r
  end.

(** The body of the loop: the candidate price of one discount, in exact
    arithmetic. *)
Definition discountedPrice (basePrice : Q) (discount : Discount) : Q :=
  match d_discountType discount with
  | PERCENTAGE => basePrice * (1 - d_value discount / 100)
  | FIXED_AMOUNT => Qmax 0 (basePrice - d_value discount)
  end.

Definition savings (basePrice : Q) (discount : Discount) : Q :=
  basePrice - discountedPrice basePrice discount.

(** The three variables the loop updates. *)
Record Best := mkBest {
  finalPrice : Q;
  bestDiscount : option Discount;
  maxSavings : Q
}.

Definition step (basePrice : Q) (acc : Best) (discount : Discount) : Best :=
  let discountedPrice := discountedPrice basePrice discount in
  let savings := basePrice - discountedPrice in
  if Qgtb savings (maxSavings acc) then mkBest discountedPrice (Some discount) savings
  else acc.

(** [for (const discount of validDiscounts) { ... }] *)
Definition bestOf (basePrice : Q) (validDiscounts : list Discount) : Best :=
  fold_left (step basePrice) validDiscounts (mkBest basePrice None 0).

Definition applied (discount : Discount) : AppliedDiscount :=
  mkAppliedDiscount (d_id discount) (d_name discount)
    (d_discountType discount) (d_value discount).

(** The discounts fetched for the product's active links, in link order;
    a link whose discount is gone yields null. *)
Definition fetchDiscounts (db : Db) (product : Product) : list (option Discount) :=
  map (fun pd => DiscountRepository.findById (pd_discountId pd) db)
      (ProductDiscountRepository.findByProduct (p_id product) db).

Definition validDiscounts (db : Db) (now : Date) (product : Product) : list Discount :=
  present (filter (isValidNow now) (fetchDiscounts db product)).

(** [calculateProductPricing(product)] *)
Definition calculateProductPricing (db : Db) (now : Date) (product : Product)
  : ProductResponseDto :=
  let basePrice := p_basePrice product in
  let productDiscounts := ProductDiscountRepository.findByProduct (p_id product) db in
  if (List.length productDiscounts =? 0)%nat then mapToResponseDto product basePrice []
  else
    let validDiscounts := validDiscounts db now product in
    if (List.length validDiscounts =? 0)%nat then mapToResponseDto product basePrice []
    else
      let best := bestOf basePrice validDiscounts in
      let appliedDiscounts :=
        match bestDiscount best with
        | Some b => [applied b]
        | None => []
        end in
      mapToResponseDto product (finalPrice best) appliedDiscounts.

(** The pair [(finalPrice, appliedDiscounts)] that [calculateProductPricing]
    hands to [mapToResponseDto] (see [calculateProductPricing_resolve]). *)
Definition resolve (db : Db) (now : Date) (product : Product)
  : Q * list AppliedDiscount :=
  let best := bestOf (p_basePrice product) (validDiscounts db now product) in
  (finalPrice best,
   match bestDiscount best with
   | Some b => [applied b]
   | None => []
   end).

(** [findOne(id)] *)
Definition findOne (db : Db) (now : Date) (id : ObjectId) : Result ProductResponseDto :=
  match BaseRepository.findById p_id id (products db) with
  | None =>
      Throw (NotFoundException
               (if truthyString id then "Product with ID " ++ id ++ " not found"
                else "Product not found"))
  | Some product => Ok (calculateProductPricing db now product)
  end.

(** [findByCategory(categoryId)] *)
Definition findByCategory (db : Db) (now : Date) (categoryId : ObjectId)
  : list ProductResponseDto :=
  map (calculateProductPricing db now)
    (BaseRepository.findAll
       (fun p => String.eqb (p_categoryId p) categoryId && p_isActive p)
       (products db)).

End ProductsService.

(** ** The invariant of the pricing loop *)

(** What the loop of [calculateProductPricing] has established once it has
    gone through the discounts [seen] of a product of base price [p]:
    either nothing saved anything and the three variables are untouched, or
    [bestDiscount] is the first of the discounts of greatest savings. *)
Definition Inv (p : Q) (seen : list Discount) (acc : ProductsService.Best) : Prop :=
  match ProductsService.bestDiscount acc with
  | None =>
      ProductsService.finalPrice acc = p /\ ProductsService.maxSavings acc = 0 /\
      (forall x, In x seen -> ProductsService.savings p x <= 0)
  | Some w =>
      ProductsService.finalPrice acc = ProductsService.discountedPrice p w /\
      ProductsService.maxSavings acc = ProductsService.savings p w /\
      0 < ProductsService.savings p w /\
      exists pre post,
        seen = pre ++ w :: post /\
        (forall x, In x pre ->
           ProductsService.savings p x < ProductsService.savings p w) /\
        (forall x, In x post ->
           ProductsService.savings p x <= ProductsService.savings p w)
  end.

(** ** Sample data *)

Module Scenario.
Local Open Scope string_scope.

Definition now : Date := 1000%Z.

Definition headphones : Product :=
  mkProduct "p1" "Premium Wireless Headphones" "premium-wireless-headphones"
    "High-quality wireless headphones" 100 "c1" "WH-1000XM4" true.

Definition cable : Product :=
  mkProduct "p2" "Audio Cable" "audio-cable" "Braided cable" 50 "c1" "AC-1" true.

(** Active discounts whose window [0, 2000] contains [now]. *)
Definition spring10 : Discount :=
  mkDiscount "d10" None "Spring 10" PERCENTAGE 10 0%Z 2000%Z true None 0.
Definition summer20 : Discount :=
  mkDiscount "d20" (Some "SUMMER20") "Summer Sale" PERCENTAGE 20 0%Z 2000%Z true None 0.
Definition minus60 : Discount :=
  mkDiscount "d60" None "Sixty off" FIXED_AMOUNT 60 0%Z 2000%Z true None 0.
Definition over150 : Discount :=
  mkDiscount "d150" None "Over the top" PERCENTAGE 150 0%Z 2000%Z true None 0.
(** A discount that has used up its 5 redemptions. *)
Definition capped20 : Discount :=
  mkDiscount "dcap" None "Capped 20" PERCENTAGE 20 0%Z 2000%Z true (Some 5) 5.
(** A discount whose window closed at 500. *)
Definition expired20 : Discount :=
  mkDiscount "dold" None "Expired 20" PERCENTAGE 20 0%Z 500%Z true None 0.

Definition link (id productId discountId : ObjectId) : ProductDiscount :=
  mkProductDiscount id productId None discountId true.

Definition catalog : list Product := [headphones; cable].

Definition dbPlain : Db := mkDb catalog [summer20] [].
Definition dbCapped : Db := mkDb catalog [capped20] [link "l1" "p1" "dcap"].
Definition dbExpired : Db := mkDb catalog [expired20] [link "l1" "p1" "dold"].
Definition dbTwo : Db :=
  mkDb catalog [spring10; summer20]
    [link "l1" "p1" "d10"; link "l2" "p1" "d20"; link "l3" "p2" "d20"].
Definition dbOver : Db := mkDb catalog [over150] [link "l1" "p1" "d150"].

(** A creation request whose window ends before it starts. *)
Definition backwards : CreateDiscountDto :=
  mkCreateDiscountDto (Some "winter") "Winter Sale" PERCENTAGE 15 2000%Z 1000%Z None.

(** A partial update that moves only the start date, past the stored end. *)
Definition onlyStart : UpdateDiscountDto :=
  mkUpdateDiscountDto None None None None (Some 3000%Z) None None None.

(** An update that supplies both dates, in the wrong order. *)
Definition bothBackwards : UpdateDiscountDto :=
  mkUpdateDiscountDto None None None None (Some 3000%Z) (Some 2500%Z) None None.
End Scenario.

(** ** Further repository and service methods *)

From Stdlib Require Import Qround.

Definition lowerAscii (c : ascii) : ascii :=
  let n := nat_of_ascii c in
  if ((65 <=? n)%nat && (n <=? 90)%nat)%bool then ascii_of_nat (n + 32) else c.

(** [String.prototype.toLowerCase] on ASCII text. *)
Fixpoint toLowerCase (s : string) : string :=
  match s with
  | EmptyString => EmptyString
  | String c r => String (lowerAscii c) (toLowerCase r)
  end.

(** The white space [String.prototype.trim] removes, within ASCII. *)
Definition isWhiteSpace (c : ascii) : bool :=
  let n := nat_of_ascii c in
  (((9 <=? n)%nat && (n <=? 13)%nat) || (n =? 32)%nat)%bool.

Fixpoint trimStart (s : string) : string :=
  match s with
  | EmptyString => EmptyString
  | String c r => if isWhiteSpace c then trimStart r else s
  end.

Fixpoint trimEnd (s : string) : string :=
  match s with
  | EmptyString => EmptyString
  | String c r =>
      match trimEnd r with
      | EmptyString => if isWhiteSpace c then EmptyString else String c EmptyString
      | r' => String c r'
      end
  end.

(** [String.prototype.trim] on ASCII text, the schema setter [trim: true]. *)
Definition trim (s : string) : string := trimEnd (trimStart s).

Fixpoint isAscii (s : string) : bool :=
  match s with
  | EmptyString => true
  | String c r => ((nat_of_ascii c <? 128)%nat && isAscii r)%bool
  end.

(** A request string that is stored as the model stores it: ASCII text
    without white space at either end, which [trim] leaves alone and whose
    case mapping is the ASCII one. *)
Definition plain (s : string) : bool := (isAscii s && String.eqb (trim s) s)%bool.





(** *** Usage counting *)

Module DiscountUsage.

(** The update document [{ $inc: { usageCount: 1 } }]. *)
Definition incUsageCount (d : Discount) : Discount :=
  mkDiscount (d_id d) (d_code d) (d_name d) (d_discountType d) (d_value d)
    (d_startDate d) (d_endDate d) (d_isActive d) (d_maxUsageCount d)
    (d_usageCount d + 1).

(** [DiscountRepository.incrementUsageCount(discountId)] *)
Definition incrementUsageCount (discountId : ObjectId) (db : Db) : option Discount * Db :=
  let '(updated, coll) :=
    BaseRepository.update d_id discountId incUsageCount (discounts db) in
  (updated, mkDb (products db) coll (productDiscounts db)).

(** The usage test of [DiscountRepository.isDiscountValid]:
    [discount.maxUsageCount && discount.usageCount >= discount.maxUsageCount]. *)
Definition capReached (d : Discount) : bool :=
  match d_maxUsageCount d with
  | Some maxUsageCount =>
      (truthyNumber maxUsageCount && Qle_bool maxUsageCount (d_usageCount d))%bool
  | None => false
  end.

End DiscountUsage.

(** *** Pagination *)

(** The [meta] object of a paginated response. *)
Record PaginationMeta := mkPaginationMeta {
  m_page : Z;
  m_limit : Z;
  m_total : Z;
  m_totalPages : Z;
  m_hasNextPage : bool;
  m_hasPrevPage : bool
}.

Module Pagination.
Section Paging.
Variable T : Type.
(** [.sort({ [sortBy]: sortValue })]: the order the database gives the
    matching documents for the requested key and direction. *)
Variable sort : list T -> list T.

(** [BaseRepository.findWithPagination]; [page] and [limit] are the integers
    of the query, [total] is [countDocuments(filter)]. *)
Definition findWithPagination (filter : T -> bool) (page limit : Z) (coll : list T)
  : list T * Z :=
  let skip := ((page - 1) * limit)%Z in
  let matching := List.filter filter coll in
  (firstn (Z.to_nat limit) (skipn (Z.to_nat skip) (sort matching)),
   Z.of_nat (List.length matching)).
End Paging.

(** The [meta] that [findAll] and [search] of the services build from
    [page], [limit] and [total]. *)
Definition meta (page limit total : Z) : PaginationMeta :=
  mkPaginationMeta page limit total
    (Qceiling (inject_Z total / inject_Z limit))
    (page * limit <? total)%Z
    (page >? 1)%Z.

End Pagination.

Arguments Pagination.findWithPagination {T}.

(** *** Listing and lookup in DiscountsService *)

Module DiscountsListing.
Local Open Scope service_scope.
Local Open Scope string_scope.

(** [DiscountsService.findAll(page, limit, sortBy, sortOrder)]; the response
    DTO copies the fields of the discount, and [sort] stands for the order
    [sortBy]/[sortOrder] select. *)
Definition findAll (sort : list Discount -> list Discount) (page limit : Z) (db : Db)
  : list Discount * PaginationMeta :=
  let '(data, total) :=
    Pagination.findWithPagination sort (fun _ => true) page limit (discounts db) in
  (data, Pagination.meta page limit total).

(** [DiscountsService.findByCode(code)] *)
Definition findByCode (code : string) : Service Discount :=
  discount <- query (DiscountRepository.findByCode code) ;;
  match discount with
  | None => throw (NotFoundException ("Discount with code " ++ code ++ " not found"))
  | Some d => ret d
  end.

(** [DiscountsService.getProductsByDiscount(discountId)] *)
Definition getProductsByDiscount (discountId : ObjectId) : Service (list ProductDiscount) :=
  DiscountsService.findOne discountId ;;;
  query (ProductDiscountRepository.findByDiscount discountId).

End DiscountsListing.

(** *** Product management *)

Module ProductRepository.

(** The filters are [{ slug: slug.toLowerCase() }] and
    [{ sku: sku.toUpperCase() }]; the schema's [trim] setter, which also runs
    on them, is the identity on [plain] strings. *)
Definition findBySlug (slug : string) (db : Db) : option Product :=
  BaseRepository.findOne (fun p => String.eqb (p_slug p) (toLowerCase slug)) (products db).

Definition findBySku (sku : string) (db : Db) : option Product :=
  BaseRepository.findOne (fun p => String.eqb (p_sku p) (toUpperCase sku)) (products db).

Definition findByCategory (categoryId : ObjectId) (db : Db) : list Product :=
  BaseRepository.findAll
    (fun p => String.eqb (p_categoryId p) categoryId && p_isActive p) (products db).

End ProductRepository.

(** modules/products/dto/create-product.dto.ts *)
Record CreateProductDto := mkCreateProductDto {
  cp_name : string;
  cp_slug : string;
  cp_description : string;
  cp_basePrice : Q;
  cp_categoryId : ObjectId;
  cp_sku : string
}.

(** modules/products/dto/update-product.dto.ts: every field is optional, and
    neither the SKU nor the active flag can be sent. *)
Record UpdateProductDto := mkUpdateProductDto {
  up_name : option string;
  up_slug : option string;
  up_description : option string;
  up_basePrice : option Q;
  up_categoryId : option ObjectId
}.

(** The write side of [ProductsService]; its exceptions are represented by
    the HTTP exception of the same status.  Ids are well-formed: the
    CastError of a malformed id, which [update] and [remove] turn into a
    DatabaseException, is not represented. *)
Module ProductsCrud.
Local Open Scope service_scope.
Local Open Scope string_scope.

(** [new ProductConflictException(field, value)] *)
Definition ProductConflictException (field value : string) : HttpException :=
  ConflictException ("Product with " ++ field ++ " '" ++ value ++ "' already exists").

(** [new ProductNotFoundException(productId)] *)
Definition ProductNotFoundException (productId : string) : HttpException :=
  NotFoundException
    (if truthyString productId then "Product with ID " ++ productId ++ " not found"
     else "Product not found").

(** [new ProductOperationException(operation, ...)] *)
Definition ProductOperationException (operation : string) : HttpException :=
  BadRequestException ("Failed to " ++ operation ++ " product").

Definition onProducts {A} (w : list Product -> A * list Product) (db : Db) : A * Db :=
  let '(a, coll) := w (products db) in
  (a, mkDb coll (discounts db) (productDiscounts db)).

(** The document [productRepository.create] saves: the DTO with the slug
    lower-cased and the SKU upper-cased, and the schema default
    [isActive: true].  The schema also trims name, slug and SKU, which
    changes nothing on [plain] strings. *)
Definition newProduct (newId : ObjectId) (dto : CreateProductDto) : Product :=
  mkProduct newId (cp_name dto) (toLowerCase (cp_slug dto)) (cp_description dto)
    (cp_basePrice dto) (cp_categoryId dto) (toUpperCase (cp_sku dto)) true.

(** [create(createProductDto)]; [newId] is the ObjectId the driver assigns. *)
Definition create (newId : ObjectId) (dto : CreateProductDto) : Service Product :=
  existingBySku <- query (ProductRepository.findBySku (cp_sku dto)) ;;
  match existingBySku with
  | Some _ => throw (ProductConflictException "sku" (cp_sku dto))
  | None =>
      existingBySlug <- query (ProductRepository.findBySlug (cp_slug dto)) ;;
      match existingBySlug with
      | Some _ => throw (ProductConflictException "slug" (cp_slug dto))
      | None => exec (onProducts (BaseRepository.create (newProduct newId dto)))
      end
  end.

Definition applyUpdate (dto : UpdateProductDto) (p : Product) : Product :=
  mkProduct (p_id p)
    (DiscountsService.orElse (up_name dto) (p_name p))
    (DiscountsService.orElse (up_slug dto) (p_slug p))
    (DiscountsService.orElse (up_description dto) (p_description p))
    (DiscountsService.orElse (up_basePrice dto) (p_basePrice p))
    (DiscountsService.orElse (up_categoryId dto) (p_categoryId p))
    (p_sku p) (p_isActive p).

Definition withSlug (dto : UpdateProductDto) (slug : option string) : UpdateProductDto :=
  mkUpdateProductDto (up_name dto) slug (up_description dto) (up_basePrice dto)
    (up_categoryId dto).

(** [update(id, updateProductDto)]; [existingBySlug] is a lean document,
    so the test [existingBySlug.id !== id] compares [undefined]. *)
Definition update (id : ObjectId) (dto : UpdateProductDto) : Service Product :=
  product <- query (fun db => BaseRepository.findById p_id id (products db)) ;;
  match product with
  | None => throw (ProductNotFoundException id)
  | Some _ =>
      dto <- (if DiscountsService.truthyCode (up_slug dto) then
                existingBySlug <-
                  query (ProductRepository.findBySlug (DiscountsService.codeOr (up_slug dto))) ;;
                match existingBySlug with
                | Some existingBySlug =>
                    if strictNotEqual (BaseRepository.leanId existingBySlug) id then
                      throw (ProductConflictException "slug"
                               (DiscountsService.codeOr (up_slug dto)))
                    else ret (withSlug dto (option_map toLowerCase (up_slug dto)))
                | None => ret (withSlug dto (option_map toLowerCase (up_slug dto)))
                end
              else ret dto) ;;
      updated <- exec (onProducts (BaseRepository.update p_id id (applyUpdate dto))) ;;
      match updated with
      | None => throw (ProductOperationException "update")
      | Some u => ret u
      end
  end.

(** [remove(id)] *)
Definition remove (id : ObjectId) : Service unit :=
  product <- query (fun db => BaseRepository.findById p_id id (products db)) ;;
  match product with
  | None => throw (ProductNotFoundException id)
  | Some _ =>
      deleted <- exec (onProducts (BaseRepository.delete p_id id)) ;;
      if negb deleted then throw (ProductOperationException "delete") else ret tt
  end.

(** [findBySlug(slug)] *)
Definition findBySlug (db : Db) (now : Date) (slug : string) : Result ProductResponseDto :=
  match ProductRepository.findBySlug slug db with
  | None => Throw (ProductNotFoundException slug)
  | Some product => Ok (ProductsService.calculateProductPricing db now product)
  end.

(** [findAll(page, limit, sortBy, sortOrder)]: the active products of the
    page, each with its pricing resolved. *)
Definition findAll (sort : list Product -> list Product) (now : Date) (page limit : Z)
    (db : Db) : list ProductResponseDto * PaginationMeta :=
  let '(data, total) :=
    Pagination.findWithPagination sort p_isActive page limit (products db) in
  (map (ProductsService.calculateProductPricing db now) data,
   Pagination.meta page limit total).

End ProductsCrud.

(** *** Stored codes *)

(** The codes of the stored discounts, in collection order. *)
Definition storedCodes (db : Db) : list string :=
  ProductsService.present (map d_code (discounts db)).

(** What the unique index on [code] and the upper-casing of the service
    maintain: stored codes are upper-case and pairwise different. *)
Definition CodesCanonical (db : Db) : Prop :=
  NoDup (storedCodes db) /\ forall c, In c (storedCodes db) -> toUpperCase c = c.

(** *** More sample data *)

Module ScenarioMore.
Local Open Scope string_scope.

(** A discount of value 0, active in a window around [Scenario.now]. *)
Definition nothingOff : Discount :=
  mkDiscount "d0" None "Nothing off" PERCENTAGE 0 0%Z 2000%Z true None 0.
(** A discount one redemption short of its cap of 5. *)
Definition almostCapped : Discount :=
  mkDiscount "dcap" None "Capped 20" PERCENTAGE 20 0%Z 2000%Z true (Some 5) 4.

Definition dbNothingOff : Db :=
  mkDb Scenario.catalog [nothingOff] [Scenario.link "l1" "p1" "d0"].
Definition dbAlmostCapped : Db :=
  mkDb Scenario.catalog [Scenario.spring10; almostCapped]
    [Scenario.link "l1" "p1" "dcap"].

(** A creation request with a well-ordered window and a lower-case code. *)
Definition autumn : CreateDiscountDto :=
  mkCreateDiscountDto (Some "autumn25") "Autumn Sale" PERCENTAGE 25 500%Z 1500%Z None.
(** The same code again, in another case. *)
Definition summerAgain : CreateDiscountDto :=
  mkCreateDiscountDto (Some "Summer20") "Summer Again" FIXED_AMOUNT 5 500%Z 1500%Z None.


Definition speaker : CreateProductDto :=
  mkCreateProductDto "Portable Speaker" "Portable-Speaker" "A small speaker" 40 "c1" "sp-1".
Definition headphonesAgain : CreateProductDto :=
  mkCreateProductDto "Other Headphones" "other-headphones" "Another pair" 60 "c1" "wh-1000xm4".
End ScenarioMore.

(** * Properties *)

(** ** Numbers and lists *)

Lemma Qgtb_true (a b : Q) : Qgtb a b = true <-> b < a.
Proof.
  unfold Qgtb. rewrite negb_true_iff. split; intro H.
  - apply Qnot_le_lt. intro Hle. apply Qle_bool_iff in Hle. congruence.
  - destruct (Qle_bool a b) eqn:E; [|reflexivity].
    apply Qle_bool_iff in E. exfalso. exact (Qlt_not_le _ _ H E).
Qed.

Lemma Qgtb_false (a b : Q) : Qgtb a b = false <-> a <= b.
Proof.
  unfold Qgtb. rewrite negb_false_iff. apply Qle_bool_iff.
Qed.

Lemma present_In {A} (a : A) (l : list (option A)) :
  In a (ProductsService.present l) <-> In (Some a) l.
Proof.
  induction l as [|[x|] l IH]; simpl.
  - tauto.
  - rewrite IH. split; intros [H|H]; auto; left; congruence.
  - rewrite IH. split; [auto|]. intros [H|H]; [discriminate|assumption].
Qed.

Lemma find_split {A} (f : A -> bool) (l : list A) (x : A) :
  find f l = Some x ->
  exists pre post,
    l = pre ++ x :: post /\ f x = true /\ (forall y, In y pre -> f y = false).
Proof.
  induction l as [|a l IH]; simpl; [discriminate|].
  destruct (f a) eqn:E; intro H.
  - injection H as ->. exists [], l. simpl. repeat split; [assumption|contradiction].
  - destruct (IH H) as (pre & post & -> & Hx & Hpre).
    exists (a :: pre), post. repeat split; [assumption|].
    intros y [<-|Hy]; auto.
Qed.

Lemma find_none_iff {A} (f : A -> bool) (l : list A) :
  find f l = None <-> (forall y, In y l -> f y = false).
Proof.
  split.
  - apply find_none.
  - induction l as [|a l IH]; simpl; intro H; [reflexivity|].
    rewrite (H a (or_introl eq_refl)). apply IH. intros y Hy. apply H. now right.
Qed.

(** ** The pricing loop *)

Module PricingFacts.
Import ProductsService.

Section Loop.
Variable p : Q.

Lemma Inv_init : Inv p [] (mkBest p None 0).
Proof. simpl. repeat split. intros x []. Qed.

Lemma Inv_step seen acc d :
  Inv p seen acc -> Inv p (seen ++ [d]) (step p acc d).
Proof.
  unfold Inv, step. intro H.
  fold (savings p d).
  destruct (Qgtb (savings p d) (maxSavings acc)) eqn:E.
  - apply Qgtb_true in E. simpl.
    destruct (bestDiscount acc) as [w|].
    + destruct H as (_ & Hm & Hpos & pre & post & -> & Hpre & Hpost).
      rewrite Hm in E.
      repeat split; [lra|].
      exists (pre ++ w :: post), []. repeat split.
      * intros x Hx. apply in_app_or in Hx. destruct Hx as [Hx|[<-|Hx]].
        -- specialize (Hpre x Hx). lra.
        -- assumption.
        -- specialize (Hpost x Hx). lra.
      * intros x [].
    + destruct H as (_ & Hm & Hall). rewrite Hm in E.
      repeat split; [assumption|].
      exists seen, []. repeat split.
      * intros x Hx. specialize (Hall x Hx). lra.
      * intros x [].
  - apply Qgtb_false in E.
    destruct (bestDiscount acc) as [w|].
    + destruct H as (Hf & Hm & Hpos & pre & post & -> & Hpre & Hpost).
      rewrite Hm in E.
      repeat split; try assumption.
      exists pre, (post ++ [d]). repeat split.
      * rewrite <- app_assoc. reflexivity.
      * assumption.
      * intros x Hx. apply in_app_or in Hx. destruct Hx as [Hx|[<-|[]]]; auto.
    + destruct H as (Hf & Hm & Hall). rewrite Hm in E.
      repeat split; try assumption.
      intros x Hx. apply in_app_or in Hx. destruct Hx as [Hx|[<-|[]]]; auto.
Qed.

Lemma Inv_fold rest : forall seen acc,
  Inv p seen acc -> Inv p (seen ++ rest) (fold_left (step p) rest acc).
Proof.
  induction rest as [|d rest IH]; intros seen acc H; simpl.
  - rewrite app_nil_r. assumption.
  - replace (seen ++ d :: rest) with ((seen ++ [d]) ++ rest)
      by (rewrite <- app_assoc; reflexivity).
    apply IH, Inv_step, H.
Qed.

Lemma bestOf_Inv (vs : list Discount) : Inv p vs (bestOf p vs).
Proof. exact (Inv_fold vs [] _ Inv_init). Qed.

(** The loop keeps the first discount of maximal savings, provided some
    discount saves anything at all. *)
Lemma bestOf_first_max (vs : list Discount) (d : Discount) :
  In d vs -> 0 < savings p d ->
  exists w pre post,
    bestDiscount (bestOf p vs) = Some w /\
    finalPrice (bestOf p vs) = discountedPrice p w /\
    vs = pre ++ w :: post /\
    (forall x, In x pre -> savings p x < savings p w) /\
    (forall x, In x post -> savings p x <= savings p w).
Proof.
  intros Hd Hpos. pose proof (bestOf_Inv vs) as H. unfold Inv in H.
  destruct (bestDiscount (bestOf p vs)) as [w|].
  - destruct H as (Hf & _ & _ & pre & post & Hvs & Hpre & Hpost).
    exists w, pre, post. auto.
  - destruct H as (_ & _ & Hall). specialize (Hall d Hd). lra.
Qed.

(** A discount the loop selects is one of the valid discounts. *)
Lemma bestOf_In (vs : list Discount) (w : Discount) :
  bestDiscount (bestOf p vs) = Some w -> In w vs.
Proof.
  intro Hb. pose proof (bestOf_Inv vs) as H. unfold Inv in H. rewrite Hb in H.
  destruct H as (_ & _ & _ & pre & post & -> & _).
  apply in_or_app. right. now left.
Qed.
End Loop.

Lemma savings_percentage (p : Q) (d : Discount) :
  d_discountType d = PERCENTAGE -> savings p d == p * d_value d / 100.
Proof.
  intro Ht. unfold savings, discountedPrice. rewrite Ht. field.
Qed.

Lemma savings_fixed (p : Q) (d : Discount) :
  d_discountType d = FIXED_AMOUNT ->
  (d_value d <= p /\ savings p d == d_value d) \/
  (p < d_value d /\ savings p d == p).
Proof.
  intro Ht. unfold savings, discountedPrice. rewrite Ht.
  destruct (Q.max_spec 0 (p - d_value d)) as [[Hlt Hm]|[Hle Hm]]; rewrite Hm.
  - left. split; [lra|ring].
  - destruct (Qeq_dec (d_value d) p) as [He|Hne].
    + left. split; [lra|lra].
    + right. split; [|ring].
      apply Qnot_le_lt. intro Hc. apply Hne. lra.
Qed.

(** With a non-negative base price and a non-negative discount value, as the
    schemas require ([min: 0]), no discount has negative savings. *)
Lemma savings_nonneg (p : Q) (d : Discount) :
  0 <= p -> 0 <= d_value d -> 0 <= savings p d.
Proof.
  intros Hp Hv. destruct (d_discountType d) eqn:Ht.
  - rewrite (savings_percentage p d Ht).
    unfold Qdiv. apply Qmult_le_0_compat; [apply Qmult_le_0_compat; assumption|].
    discriminate.
  - destruct (savings_fixed p d Ht) as [[_ ->]|[_ ->]]; assumption.
Qed.

End PricingFacts.

(** ** Pricing resolution *)

Module Pricing.
Import ProductsService PricingFacts.

(** No active link means nothing is fetched, so nothing is valid. *)
Lemma validDiscounts_no_links db now product :
  ProductDiscountRepository.findByProduct (p_id product) db = [] ->
  validDiscounts db now product = [].
Proof.
  intro H. unfold validDiscounts, fetchDiscounts. rewrite H. reflexivity.
Qed.

(** The two early returns and the final return of [calculateProductPricing]
    are one call of [mapToResponseDto] on the pair [resolve] computes. *)
Lemma calculateProductPricing_resolve db now product :
  calculateProductPricing db now product =
  mapToResponseDto product (fst (resolve db now product)) (snd (resolve db now product)).
Proof.
  unfold calculateProductPricing, resolve.
  destruct (ProductDiscountRepository.findByProduct (p_id product) db) as [|l ls] eqn:El.
  - rewrite (validDiscounts_no_links db now product El). reflexivity.
  - cbn [List.length Nat.eqb].
    destruct (validDiscounts db now product) as [|v vs]; reflexivity.
Qed.

Lemma mapToResponseDto_finalPrice product fp ads :
  r_finalPrice (mapToResponseDto product fp ads) = Some fp.
Proof. reflexivity. Qed.

Lemma mapToResponseDto_applied_nil product fp :
  r_appliedDiscounts (mapToResponseDto product fp []) = None.
Proof. reflexivity. Qed.

Lemma mapToResponseDto_applied_cons product fp a ads :
  r_appliedDiscounts (mapToResponseDto product fp (a :: ads)) = Some (a :: ads).
Proof. reflexivity. Qed.

(** Every valid discount was fetched by its own id, is active, and has a
    window that contains [now]. *)
Lemma validDiscounts_spec db now product w :
  In w (validDiscounts db now product) ->
  DiscountRepository.findById (d_id w) db = Some w /\
  d_isActive w = true /\ (d_startDate w <= now <= d_endDate w)%Z.
Proof.
  unfold validDiscounts. rewrite present_In, filter_In.
  intros [Hf Hv]. split.
  - unfold fetchDiscounts in Hf. apply in_map_iff in Hf.
    destruct Hf as (pd & Hpd & _).
    unfold DiscountRepository.findById, BaseRepository.findById in *.
    destruct (find_some _ _ Hpd) as [_ Heq].
    apply String.eqb_eq in Heq. rewrite Heq. exact Hpd.
  - simpl in Hv. destruct (d_isActive w); [|discriminate]. simpl in Hv.
    apply andb_true_iff in Hv. destruct Hv as [Hs He].
    apply Z.leb_le in Hs. apply Z.geb_le in He. auto.
Qed.

(** When some valid discount saves something, the response carries the first
    valid discount of greatest savings and its candidate price. *)
Lemma pricing_first_max db now product d :
  let p := p_basePrice product in
  let vs := validDiscounts db now product in
  let dto := calculateProductPricing db now product in
  In d vs -> 0 < savings p d ->
  exists w pre post,
    vs = pre ++ w :: post /\
    (forall x, In x pre -> savings p x < savings p w) /\
    (forall x, In x post -> savings p x <= savings p w) /\
    r_finalPrice dto = Some (discountedPrice p w) /\
    r_appliedDiscounts dto = Some [applied w].
Proof.
  intros p vs dto Hd Hpos.
  destruct (bestOf_first_max p vs d Hd Hpos)
    as (w & pre & post & Hb & Hf & Hvs & Hpre & Hpost).
  exists w, pre, post. repeat split; try assumption.
  - subst dto. rewrite calculateProductPricing_resolve.
    unfold resolve. cbn [fst snd]. fold p vs. rewrite mapToResponseDto_finalPrice, Hf.
    reflexivity.
  - subst dto. rewrite calculateProductPricing_resolve.
    unfold resolve. cbn [fst snd]. fold p vs. rewrite Hb. reflexivity.
Qed.

(** C6.  A product with no linked discounts, and likewise a product none of
    whose linked discounts passes the validity filter, is priced at its base
    price with no applied discount: [calculateProductPricing] hands
    [(basePrice, [])] to [mapToResponseDto], so the response has
    [finalPrice = basePrice] and carries no [appliedDiscounts]. *)
Theorem no_valid_discount_keeps_base_price db now product :
  ProductDiscountRepository.findByProduct (p_id product) db = [] \/
  validDiscounts db now product = [] ->
  resolve db now product = (p_basePrice product, []) /\
  r_finalPrice (calculateProductPricing db now product) = Some (p_basePrice product) /\
  r_appliedDiscounts (calculateProductPricing db now product) = None.
Proof.
  intro H.
  assert (Hv : validDiscounts db now product = []).
  { destruct H as [H|H]; [apply validDiscounts_no_links|]; assumption. }
  assert (Hr : resolve db now product = (p_basePrice product, [])).
  { unfold resolve. rewrite Hv. reflexivity. }
  rewrite calculateProductPricing_resolve, Hr. repeat split.
Qed.

Lemma no_valid_discount_keeps_base_price_witness :
  (ProductDiscountRepository.findByProduct (p_id Scenario.headphones) Scenario.dbPlain = [] \/
   validDiscounts Scenario.dbPlain Scenario.now Scenario.headphones = []) /\
  validDiscounts Scenario.dbExpired Scenario.now Scenario.headphones = [] /\
  r_finalPrice (calculateProductPricing Scenario.dbPlain Scenario.now Scenario.headphones)
    = Some 100 /\
  r_finalPrice (calculateProductPricing Scenario.dbExpired Scenario.now Scenario.headphones)
    = Some 100 /\
  r_appliedDiscounts
    (calculateProductPricing Scenario.dbExpired Scenario.now Scenario.headphones) = None.
Proof.
  split; [left; reflexivity|].
  split; [reflexivity|].
  split.
  - apply (no_valid_discount_keeps_base_price Scenario.dbPlain Scenario.now Scenario.headphones).
    left. reflexivity.
  - split;
      apply (no_valid_discount_keeps_base_price
               Scenario.dbExpired Scenario.now Scenario.headphones);
      right; reflexivity.
Defined.

(** C4.  The candidate price of a discount of value [v] on base price [p] is
    [p * (1 - v/100)] for a percentage discount, which is not negative when
    [v] is in [0,100] (the base price being non-negative, as the product
    schema requires), and is [max(0, p - v)] for a fixed-amount discount,
    which is never negative. *)
Theorem candidate_price (p : Q) (d : Discount) :
  (d_discountType d = PERCENTAGE ->
     discountedPrice p d = p * (1 - d_value d / 100) /\
     (0 <= p -> 0 <= d_value d -> d_value d <= 100 -> 0 <= discountedPrice p d)) /\
  (d_discountType d = FIXED_AMOUNT ->
     discountedPrice p d = Qmax 0 (p - d_value d) /\
     0 <= discountedPrice p d).
Proof.
  unfold discountedPrice. split; intros ->.
  - split; [reflexivity|]. intros Hp Hv0 Hv100.
    apply Qmult_le_0_compat; [assumption|].
    assert (d_value d / 100 <= 1).
    { apply Qle_shift_div_r; [reflexivity|lra]. }
    lra.
  - split; [reflexivity|]. apply Q.le_max_l.
Qed.

Lemma candidate_price_witness :
  discountedPrice 100 Scenario.summer20 == 80 /\
  0 <= discountedPrice 100 Scenario.summer20 /\
  discountedPrice 50 Scenario.minus60 == 0 /\
  0 <= discountedPrice 50 Scenario.minus60.
Proof.
  destruct (candidate_price 100 Scenario.summer20) as [Hp _].
  destruct (Hp eq_refl) as [Heq Hnn].
  destruct (candidate_price 50 Scenario.minus60) as [_ Hf].
  destruct (Hf eq_refl) as [Heq' Hnn'].
  split; [rewrite Heq; reflexivity|].
  split; [apply Hnn; simpl; lra|].
  split; [rewrite Heq'; reflexivity|exact Hnn'].
Defined.

(** C10.  The zero floor is applied to fixed-amount discounts only: a product
    of base price [p > 0] whose single valid discount is a percentage
    discount of value [v > 100] gets [finalPrice = p * (1 - v/100)], which is
    negative. *)
Theorem percentage_over_100_gives_negative_price db now product d :
  validDiscounts db now product = [d] ->
  d_discountType d = PERCENTAGE ->
  0 < p_basePrice product ->
  100 < d_value d ->
  r_finalPrice (calculateProductPricing db now product)
    = Some (p_basePrice product * (1 - d_value d / 100)) /\
  p_basePrice product * (1 - d_value d / 100) < 0 /\
  r_appliedDiscounts (calculateProductPricing db now product) = Some [applied d].
Proof.
  intros Hvs Ht Hp Hv.
  assert (Hdiv : 1 < d_value d / 100).
  { apply Qlt_shift_div_l; [reflexivity|lra]. }
  assert (Hs : 0 < savings (p_basePrice product) d).
  { rewrite (savings_percentage _ d Ht).
    unfold Qdiv. rewrite <- Qmult_assoc.
    apply Qmult_lt_0_compat; [assumption|]. unfold Qdiv in Hdiv. lra. }
  destruct (pricing_first_max db now product d) as (w & pre & post & Hsplit & _ & _ & Hf & Ha).
  { rewrite Hvs. now left. }
  { exact Hs. }
  assert (Hw : w = d).
  { rewrite Hvs in Hsplit.
    destruct pre as [|x pre].
    - simpl in Hsplit. congruence.
    - simpl in Hsplit. injection Hsplit as _ Hnil. destruct pre; discriminate. }
  subst w. repeat split.
  - rewrite Hf. unfold discountedPrice. rewrite Ht. reflexivity.
  - setoid_replace (p_basePrice product * (1 - d_value d / 100))
      with (- (p_basePrice product * (d_value d / 100 - 1))) by ring.
    assert (0 < p_basePrice product * (d_value d / 100 - 1)).
    { apply Qmult_lt_0_compat; [assumption|lra]. }
    lra.
  - exact Ha.
Qed.

Lemma percentage_over_100_gives_negative_price_witness :
  exists fp,
    r_finalPrice (calculateProductPricing Scenario.dbOver Scenario.now Scenario.headphones)
      = Some fp /\ fp == -50 /\ fp < 0.
Proof.
  destruct (percentage_over_100_gives_negative_price
              Scenario.dbOver Scenario.now Scenario.headphones Scenario.over150)
    as (Hf & Hneg & _).
  - reflexivity.
  - reflexivity.
  - reflexivity.
  - reflexivity.
  - eexists. split; [exact Hf|]. split; [reflexivity|exact Hneg].
Defined.

(** C2, as the code has it.  Every product read response carries
    [finalPrice]; when no discount is applied it equals [basePrice].
    [appliedDiscounts] is present only when it is non-empty. *)
Theorem finalPrice_always_present db now product :
  let dto := calculateProductPricing db now product in
  (exists fp, r_finalPrice dto = Some fp) /\
  (r_appliedDiscounts dto = None -> r_finalPrice dto = Some (p_basePrice product)) /\
  (forall ads, r_appliedDiscounts dto = Some ads -> ads <> []).
Proof.
  intro dto. subst dto. rewrite calculateProductPricing_resolve.
  unfold resolve. cbn [fst snd].
  pose proof (bestOf_Inv (p_basePrice product) (validDiscounts db now product)) as HI.
  unfold Inv in HI.
  destruct (bestDiscount (bestOf (p_basePrice product) (validDiscounts db now product)))
    as [w|].
  - split; [eexists; reflexivity|]. split.
    + simpl. discriminate.
    + simpl. intros ads [= <-]. discriminate.
  - destruct HI as (Hf & _). split; [eexists; reflexivity|]. split.
    + intros _. simpl. rewrite Hf. reflexivity.
    + simpl. discriminate.
Qed.

Lemma finalPrice_always_present_witness :
  r_finalPrice (calculateProductPricing Scenario.dbPlain Scenario.now Scenario.headphones)
    = Some 100.
Proof.
  destruct (finalPrice_always_present Scenario.dbPlain Scenario.now Scenario.headphones)
    as (_ & H & _).
  apply H. reflexivity.
Defined.

(** C2, as stated, fails: for a product without any linked discount no
    discount is applied, yet the response carries [finalPrice] (set to the
    base price) instead of omitting it. *)
Lemma finalPrice_present_without_discount :
  ~ (r_appliedDiscounts
       (calculateProductPricing Scenario.dbPlain Scenario.now Scenario.headphones) = None ->
     r_finalPrice
       (calculateProductPricing Scenario.dbPlain Scenario.now Scenario.headphones) = None).
Proof.
  intro H. specialize (H eq_refl). discriminate H.
Qed.

(** C1, on the code.  A percentage discount of 20 that has reached its usage
    cap ([maxUsageCount = 5], [usageCount = 5]) is rejected by
    [DiscountRepository.isDiscountValid], but the filter of
    [calculateProductPricing] does not look at the usage counters: the
    discount is applied and the product of base price 100 is priced at 80. *)
Theorem usage_capped_discount_is_applied :
  let dto := calculateProductPricing Scenario.dbCapped Scenario.now Scenario.headphones in
  d_maxUsageCount Scenario.capped20 = Some 5 /\
  d_usageCount Scenario.capped20 = 5 /\
  DiscountRepository.isDiscountValid Scenario.now (d_id Scenario.capped20) Scenario.dbCapped
    = false /\
  r_appliedDiscounts dto = Some [applied Scenario.capped20] /\
  exists fp, r_finalPrice dto = Some fp /\ fp == 80 /\ ~ fp == 100.
Proof.
  repeat split.
  eexists. split; [reflexivity|]. split; [reflexivity|].
  intro H. discriminate H.
Qed.

(** An applied discount is the summary of a valid discount. *)
Lemma applied_is_valid db now product ads a :
  r_appliedDiscounts (calculateProductPricing db now product) = Some ads ->
  In a ads ->
  exists w, In w (validDiscounts db now product) /\ a = applied w.
Proof.
  rewrite calculateProductPricing_resolve. unfold resolve. cbn [fst snd].
  destruct (bestDiscount (bestOf (p_basePrice product) (validDiscounts db now product)))
    as [w|] eqn:Hb; simpl; [|discriminate].
  intros [= <-] [<-|[]].
  exists w. split; [|reflexivity].
  exact (bestOf_In _ _ _ Hb).
Qed.

(** C5.  A stored discount that has not started ([now < startDate]), has
    ended ([now > endDate]) or is switched off ([isActive = false]) does not
    appear in [appliedDiscounts] of any pricing result computed at [now]. *)
Theorem inapplicable_discount_never_applied db now product d :
  DiscountRepository.findById (d_id d) db = Some d ->
  (now < d_startDate d)%Z \/ (d_endDate d < now)%Z \/ d_isActive d = false ->
  forall ads a,
    r_appliedDiscounts (calculateProductPricing db now product) = Some ads ->
    In a ads -> a_id a <> d_id d.
Proof.
  intros Hd Hbad ads a Hads Ha Hid.
  destruct (applied_is_valid db now product ads a Hads Ha) as (w & Hw & ->).
  destruct (validDiscounts_spec db now product w Hw) as (Hfw & Hact & Hs & He).
  simpl in Hid. rewrite Hid in Hfw. rewrite Hfw in Hd. injection Hd as ->.
  destruct Hbad as [H|[H|H]]; [lia|lia|congruence].
Qed.

Lemma inapplicable_discount_never_applied_witness :
  DiscountRepository.findById (d_id Scenario.expired20) Scenario.dbExpired
    = Some Scenario.expired20 /\
  (d_endDate Scenario.expired20 < Scenario.now)%Z /\
  forall ads a,
    r_appliedDiscounts
      (calculateProductPricing Scenario.dbExpired Scenario.now Scenario.headphones)
      = Some ads ->
    In a ads -> a_id a <> d_id Scenario.expired20.
Proof.
  split; [reflexivity|]. split; [reflexivity|].
  apply (inapplicable_discount_never_applied
           Scenario.dbExpired Scenario.now Scenario.headphones Scenario.expired20).
  - reflexivity.
  - right. left. reflexivity.
Defined.

(** C3.  When two valid discounts of a product save [S1 < S2], the discount
    saving [S1] loses: the response carries a discount [w] saving at least
    [S2], namely the first discount of greatest savings in the fetched order
    (everything before it saves strictly less, nothing after it saves more,
    so of several discounts of equal greatest savings the earliest is kept);
    when the two are all the valid discounts, [w] is the one saving [S2]. *)
Theorem best_saving_discount_wins db now product d1 d2 :
  let p := p_basePrice product in
  let vs := validDiscounts db now product in
  let dto := calculateProductPricing db now product in
  0 <= p -> 0 <= d_value d1 ->
  In d1 vs -> In d2 vs ->
  savings p d1 < savings p d2 ->
  exists w pre post,
    vs = pre ++ w :: post /\
    (forall x, In x pre -> savings p x < savings p w) /\
    (forall x, In x post -> savings p x <= savings p w) /\
    savings p d2 <= savings p w /\
    w <> d1 /\
    (vs = [d1; d2] \/ vs = [d2; d1] -> w = d2) /\
    r_finalPrice dto = Some (discountedPrice p w) /\
    r_appliedDiscounts dto = Some [applied w].
Proof.
  intros p vs dto Hp Hv Hin1 Hin2 Hlt.
  pose proof (savings_nonneg p d1 Hp Hv) as H1.
  assert (Hpos : 0 < savings p d2) by lra.
  destruct (pricing_first_max db now product d2 Hin2 Hpos)
    as (w & pre & post & Hsplit & Hpre & Hpost & Hf & Ha).
  fold p vs in Hsplit, Hpre, Hpost.
  assert (Hmax : forall x, In x vs -> savings p x <= savings p w).
  { intros x Hx. rewrite Hsplit in Hx. apply in_app_or in Hx.
    destruct Hx as [Hx|[<-|Hx]].
    - apply Qlt_le_weak, Hpre, Hx.
    - apply Qle_refl.
    - apply Hpost, Hx. }
  assert (Hne : w <> d1).
  { intros ->. specialize (Hmax d2 Hin2). lra. }
  exists w, pre, post. repeat split; try assumption.
  - apply Hmax, Hin2.
  - assert (Hw : In w vs) by (rewrite Hsplit; apply in_or_app; right; now left).
    intros [E|E]; rewrite E in Hw; simpl in Hw;
      destruct Hw as [Hw|[Hw|[]]]; congruence.
Qed.

Lemma best_saving_discount_wins_witness :
  r_appliedDiscounts (calculateProductPricing Scenario.dbTwo Scenario.now Scenario.headphones)
    = Some [applied Scenario.summer20].
Proof.
  destruct (best_saving_discount_wins
              Scenario.dbTwo Scenario.now Scenario.headphones
              Scenario.spring10 Scenario.summer20)
    as (w & pre & post & _ & _ & _ & _ & _ & Hw & _ & Ha).
  - simpl. lra.
  - simpl. lra.
  - left. reflexivity.
  - right. left. reflexivity.
  - reflexivity.
  - rewrite <- (Hw (or_introl eq_refl)). exact Ha.
Defined.

End Pricing.

(** ** Discount management *)

Module Management.
Import DiscountsService.
Local Open Scope string_scope.
Local Open Scope list_scope.

(** *** Creation *)

(** C7.  A creation request whose start date is not strictly before its end
    date is rejected before anything is persisted: [create] throws a
    validation error and the database is unchanged.  The error is the
    date-ordering [BadRequestException], unless the request also carries a
    code that is already taken, which is reported first. *)
Theorem create_rejects_unordered_window newId dto db :
  ~ (c_startDate dto < c_endDate dto)%Z ->
  exists e,
    create newId dto db = (Throw e, db) /\
    isValidationError e = true /\
    e = if (truthyCode (c_code dto) &&
            match DiscountRepository.findByCode (codeOr (c_code dto)) db with
            | Some _ => true
            | None => false
            end)%bool
        then ConflictException "Discount with this code already exists"
        else BadRequestException "End date must be after start date".
Proof.
  intro Hord.
  assert (Hge : (c_startDate dto >=? c_endDate dto)%Z = true)
    by (apply Z.geb_le; lia).
  unfold create, bind, query, throw, ret.
  destruct (truthyCode (c_code dto)); simpl.
  - destruct (DiscountRepository.findByCode (codeOr (c_code dto)) db); simpl.
    + eexists. repeat split.
    + rewrite Hge. eexists. repeat split.
  - rewrite Hge. eexists. repeat split.
Qed.

Lemma create_rejects_unordered_window_witness :
  ~ (c_startDate Scenario.backwards < c_endDate Scenario.backwards)%Z /\
  create "d-new" Scenario.backwards Scenario.dbPlain
    = (Throw (BadRequestException "End date must be after start date"), Scenario.dbPlain).
Proof.
  assert (H : ~ (c_startDate Scenario.backwards < c_endDate Scenario.backwards)%Z)
    by (simpl; lia).
  split; [exact H|].
  destruct (create_rejects_unordered_window "d-new" Scenario.backwards Scenario.dbPlain H)
    as (e & Hc & _ & He).
  rewrite Hc, He. reflexivity.
Defined.

(** A well-ordered request with a free code is persisted: the new discount
    is appended to the collection, so the rejection above is not vacuous. *)
Lemma create_persists_ordered_window newId dto db :
  (c_startDate dto < c_endDate dto)%Z ->
  DiscountRepository.findByCode (codeOr (c_code dto)) db = None ->
  let doc := newDiscount newId dto (c_startDate dto) (c_endDate dto) in
  create newId dto db =
  (Ok doc, mkDb (products db) (discounts db ++ [doc]) (productDiscounts db)).
Proof.
  intros Hord Hfree doc.
  assert (Hge : (c_startDate dto >=? c_endDate dto)%Z = false).
  { destruct (c_startDate dto >=? c_endDate dto)%Z eqn:E; [|reflexivity].
    apply Z.geb_le in E. lia. }
  unfold create, bind, query, throw, ret, exec, saveDiscount, BaseRepository.create.
  destruct (truthyCode (c_code dto)); simpl; rewrite ?Hfree; simpl; rewrite Hge;
    reflexivity.
Qed.

(** *** Update *)

(** When an update supplies both dates in the wrong order it is rejected and
    nothing is written. *)
Lemma update_rejects_unordered_pair id dto db d s e :
  DiscountRepository.findById id db = Some d ->
  truthyCode (u_code dto) = false ->
  u_startDate dto = Some s -> u_endDate dto = Some e ->
  ~ (s < e)%Z ->
  update id dto db
    = (Throw (BadRequestException "End date must be after start date"), db).
Proof.
  intros Hd Hc Hs He Hord.
  assert (Hge : (s >=? e)%Z = true) by (apply Z.geb_le; lia).
  unfold update, findOne, bind, query, throw, ret.
  rewrite Hd, Hc. simpl. rewrite Hs, He, Hge. reflexivity.
Qed.

(** C8, on the code.  The ordering check of [update] runs only when the
    request carries both dates.  A partial update that moves the start date
    of a stored discount (window [0, 2000]) to 3000 is accepted, and the
    stored record then starts after it ends; the same start date sent
    together with an earlier end date is rejected. *)
Theorem partial_update_breaks_date_order :
  exists u db',
    update "d20" Scenario.onlyStart Scenario.dbPlain = (Ok u, db') /\
    DiscountRepository.findById "d20" db' = Some u /\
    d_startDate u = 3000%Z /\ d_endDate u = 2000%Z /\
    ~ (d_startDate u < d_endDate u)%Z /\
    update "d20" Scenario.bothBackwards Scenario.dbPlain
      = (Throw (BadRequestException "End date must be after start date"),
         Scenario.dbPlain).
Proof.
  eexists. eexists. split; [reflexivity|].
  split; [reflexivity|]. split; [reflexivity|]. split; [reflexivity|].
  split; [simpl; lia|reflexivity].
Qed.

(** *** Unlinking *)

Section Collections.
Context {T : Type} (idOf : T -> ObjectId).

(** With unique ids, deleting by the id of a stored document removes that
    very document. *)
Lemma findByIdAndDelete_at pre x post :
  NoDup (map idOf (pre ++ x :: post)) ->
  BaseRepository.findByIdAndDelete idOf (idOf x) (pre ++ x :: post)
    = (Some x, pre ++ post).
Proof.
  induction pre as [|a pre IH]; simpl; intro Hnd.
  - rewrite String.eqb_refl. reflexivity.
  - inversion Hnd as [|? ? Hnotin Hnd']; subst.
    destruct (String.eqb (idOf a) (idOf x)) eqn:E.
    + apply String.eqb_eq in E. exfalso. apply Hnotin. rewrite E.
      apply in_map, in_or_app. right. now left.
    + rewrite (IH Hnd'). reflexivity.
Qed.
End Collections.

(** [unlinkProductFromDiscount] never deletes.  When it finds a link it
    asks [delete] for [link.id], which the lean document does not have, so
    nothing matches: the repository answers [false] and the service throws
    NotFound, whether or not the pair is linked. *)
Lemma unlink_never_deletes db productId discountId :
  fst (ProductDiscountRepository.unlinkProductFromDiscount productId discountId db)
    = false /\
  snd (ProductDiscountRepository.unlinkProductFromDiscount productId discountId db)
    = db /\
  unlinkFromProduct productId discountId db
    = (Throw (NotFoundException "Product-Discount link not found"), db).
Proof.
  unfold unlinkFromProduct, bind, exec, throw,
    ProductDiscountRepository.unlinkProductFromDiscount.
  destruct (BaseRepository.findOne
              (ProductDiscountRepository.linkIs productId discountId)
              (productDiscounts db)); destruct db; simpl; repeat split.
Qed.

(** C9, on the code.  The pair (p1, d20) has a link, and [findOne] returns
    it, yet [unlinkProductFromDiscount] answers [false], the service throws
    NotFound and the link is still stored: [delete] is handed [link.id],
    which is [undefined] on the lean document.  Deleting by the link's
    [_id] would have removed exactly that link. *)
Theorem unlink_finds_link_but_deletes_nothing :
  BaseRepository.findOne (ProductDiscountRepository.linkIs "p1" "d20")
    (productDiscounts Scenario.dbTwo) = Some (Scenario.link "l2" "p1" "d20") /\
  ProductDiscountRepository.unlinkProductFromDiscount "p1" "d20" Scenario.dbTwo
    = (false, Scenario.dbTwo) /\
  unlinkFromProduct "p1" "d20" Scenario.dbTwo
    = (Throw (NotFoundException "Product-Discount link not found"), Scenario.dbTwo) /\
  In (Scenario.link "l2" "p1" "d20")
    (productDiscounts (snd (unlinkFromProduct "p1" "d20" Scenario.dbTwo))) /\
  BaseRepository.delete pd_id "l2" (productDiscounts Scenario.dbTwo)
    = (true, [Scenario.link "l1" "p1" "d10"; Scenario.link "l3" "p2" "d20"]).
Proof.
  split; [reflexivity|]. split; [reflexivity|]. split; [reflexivity|].
  split; [|reflexivity]. simpl. right. left. reflexivity.
Qed.

End Management.

(** ** More on the pricing resolution *)

Module PricingMore.
Import ProductsService PricingFacts Pricing.

(** The response in terms of the loop result. *)
Lemma pricing_cases db now product :
  let p := p_basePrice product in
  let vs := validDiscounts db now product in
  let dto := calculateProductPricing db now product in
  (r_finalPrice dto = Some p /\ r_appliedDiscounts dto = None /\
   forall x, In x vs -> savings p x <= 0) \/
  (exists w,
     r_finalPrice dto = Some (discountedPrice p w) /\
     r_appliedDiscounts dto = Some [applied w] /\
     In w vs /\ 0 < savings p w /\
     forall x, In x vs -> savings p x <= savings p w).
Proof.
  intros p vs dto. subst dto. rewrite calculateProductPricing_resolve.
  unfold resolve. cbn [fst snd]. fold p vs.
  pose proof (bestOf_Inv p vs) as HI. unfold Inv in HI.
  destruct (bestDiscount (bestOf p vs)) as [w|].
  - right. destruct HI as (Hf & _ & Hpos & pre & post & Hvs & Hpre & Hpost).
    exists w. rewrite mapToResponseDto_finalPrice, Hf.
    repeat split; try assumption.
    + rewrite Hvs. apply in_or_app. right. now left.
    + intros x Hx. rewrite Hvs in Hx. apply in_app_or in Hx.
      destruct Hx as [Hx|[<-|Hx]].
      * apply Qlt_le_weak, Hpre, Hx.
      * apply Qle_refl.
      * apply Hpost, Hx.
  - left. destruct HI as (Hf & _ & Hall).
    rewrite mapToResponseDto_finalPrice, Hf. repeat split. exact Hall.
Qed.

(** The price in one statement: it is at most the base price and at most
    every candidate, and it is the base price or one of the candidates. *)
Lemma price_summary db now product :
  exists fp,
    r_finalPrice (calculateProductPricing db now product) = Some fp /\
    fp <= p_basePrice product /\
    (forall d, In d (validDiscounts db now product) ->
       fp <= discountedPrice (p_basePrice product) d) /\
    (fp = p_basePrice product \/
     exists w, In w (validDiscounts db now product) /\
               fp = discountedPrice (p_basePrice product) w).
Proof.
  destruct (pricing_cases db now product)
    as [(Hf & _ & Hall)|(w & Hf & _ & Hin & Hpos & Hmax)].
  - exists (p_basePrice product). repeat split.
    + assumption.
    + apply Qle_refl.
    + intros d Hd. specialize (Hall d Hd). unfold savings in Hall. lra.
    + now left.
  - exists (discountedPrice (p_basePrice product) w). repeat split.
    + assumption.
    + unfold savings in Hpos. lra.
    + intros d Hd. specialize (Hmax d Hd). unfold savings in Hmax. lra.
    + right. exists w. split; [assumption|reflexivity].
Qed.

(** X1.  Pricing never raises a price: [finalPrice] is at most [basePrice],
    equal to it when no discount is applied and strictly below it when one
    is, whatever the stored values are. *)
Theorem finalPrice_never_above_base db now product :
  exists fp,
    r_finalPrice (calculateProductPricing db now product) = Some fp /\
    fp <= p_basePrice product /\
    (r_appliedDiscounts (calculateProductPricing db now product) = None ->
       fp = p_basePrice product) /\
    (r_appliedDiscounts (calculateProductPricing db now product) <> None ->
       fp < p_basePrice product).
Proof.
  destruct (pricing_cases db now product) as [(Hf & Ha & _)|(w & Hf & Ha & _ & Hpos & _)].
  - exists (p_basePrice product). rewrite Ha. repeat split.
    + assumption.
    + apply Qle_refl.
    + intro H. contradiction.
  - exists (discountedPrice (p_basePrice product) w). rewrite Ha.
    unfold savings in Hpos. repeat split.
    + assumption.
    + lra.
    + discriminate.
    + intros _. lra.
Qed.

Lemma finalPrice_never_above_base_witness :
  exists fp,
    r_finalPrice (calculateProductPricing Scenario.dbTwo Scenario.now Scenario.headphones)
      = Some fp /\ fp < 100.
Proof.
  destruct (finalPrice_never_above_base Scenario.dbTwo Scenario.now Scenario.headphones)
    as (fp & Hf & _ & _ & Hlt).
  exists fp. split; [exact Hf|]. apply Hlt. discriminate.
Defined.

(** X2.  The applied discount is the one that saves most.  Either no
    discount is applied, the price is the base price and no valid discount
    has positive savings; or the applied discount is a valid one with
    positive savings, no valid discount has greater savings, and the price
    is its candidate price. *)
Theorem applied_discount_saves_most db now product :
  (r_appliedDiscounts (calculateProductPricing db now product) = None /\
   r_finalPrice (calculateProductPricing db now product) = Some (p_basePrice product) /\
   forall d, In d (validDiscounts db now product) ->
     savings (p_basePrice product) d <= 0) \/
  (exists w,
     In w (validDiscounts db now product) /\
     r_appliedDiscounts (calculateProductPricing db now product) = Some [applied w] /\
     r_finalPrice (calculateProductPricing db now product)
       = Some (discountedPrice (p_basePrice product) w) /\
     0 < savings (p_basePrice product) w /\
     forall d, In d (validDiscounts db now product) ->
       savings (p_basePrice product) d <= savings (p_basePrice product) w).
Proof.
  destruct (pricing_cases db now product) as [(Hf & Ha & Hall)|(w & Hf & Ha & Hin & Hpos & Hmax)].
  - left. auto.
  - right. exists w. auto.
Qed.

Lemma applied_discount_saves_most_witness :
  exists w,
    r_appliedDiscounts
      (calculateProductPricing Scenario.dbTwo Scenario.now Scenario.headphones)
      = Some [applied w] /\
    savings 100 Scenario.spring10 <= savings 100 w.
Proof.
  destruct (applied_discount_saves_most Scenario.dbTwo Scenario.now Scenario.headphones)
    as [(Ha & _)|(w & _ & Ha & _ & _ & Hmax)].
  - discriminate Ha.
  - exists w. split; [exact Ha|]. apply (Hmax Scenario.spring10). left. reflexivity.
Defined.

(** X3.  With a non-negative base price, [finalPrice] is non-negative as
    long as no valid percentage discount exceeds 100; fixed amounts of any
    size are harmless. *)
Theorem finalPrice_nonneg db now product :
  0 <= p_basePrice product ->
  (forall d, In d (validDiscounts db now product) ->
     d_discountType d = PERCENTAGE -> d_value d <= 100) ->
  exists fp,
    r_finalPrice (calculateProductPricing db now product) = Some fp /\ 0 <= fp.
Proof.
  intros Hp Hcap.
  destruct (price_summary db now product) as (fp & Hf & _ & _ & Hwho).
  exists fp. split; [assumption|].
  destruct Hwho as [->|(w & Hw & ->)]; [assumption|].
  unfold discountedPrice. destruct (d_discountType w) eqn:Ht.
  - specialize (Hcap w Hw Ht).
    apply Qmult_le_0_compat; [assumption|].
    assert (d_value w / 100 <= 1) by (apply Qle_shift_div_r; [reflexivity|lra]).
    lra.
  - apply Q.le_max_l.
Qed.

Lemma finalPrice_nonneg_witness :
  exists fp,
    r_finalPrice (calculateProductPricing Scenario.dbTwo Scenario.now Scenario.headphones)
      = Some fp /\ 0 <= fp.
Proof.
  apply (finalPrice_nonneg Scenario.dbTwo Scenario.now Scenario.headphones).
  - simpl. lra.
  - intros d [<-|[<-|[]]] _; simpl; lra.
Defined.

Lemma savings_worthless p d :
  d_value d == 0 \/ (p == 0 /\ 0 <= d_value d) -> savings p d <= 0.
Proof.
  intro H. destruct (d_discountType d) eqn:Ht.
  - rewrite (savings_percentage p d Ht).
    destruct H as [H|[H _]]; rewrite H; apply Qle_lteq; right; field.
  - destruct (savings_fixed p d Ht) as [[Hle ->]|[Hlt ->]]; destruct H as [H|[H H']]; lra.
Qed.

(** X4.  A discount that saves nothing is never shown as applied: when every
    valid discount has value 0, or the product is free and the values are
    non-negative, the response has the base price and no applied discount. *)
Theorem worthless_discount_not_applied db now product :
  (forall d, In d (validDiscounts db now product) ->
     d_value d == 0 \/ (p_basePrice product == 0 /\ 0 <= d_value d)) ->
  r_finalPrice (calculateProductPricing db now product) = Some (p_basePrice product) /\
  r_appliedDiscounts (calculateProductPricing db now product) = None.
Proof.
  intro H.
  destruct (pricing_cases db now product) as [(Hf & Ha & _)|(w & _ & _ & Hin & Hpos & _)].
  - split; assumption.
  - pose proof (savings_worthless (p_basePrice product) w (H w Hin)). lra.
Qed.

Lemma worthless_discount_not_applied_witness :
  r_finalPrice
    (calculateProductPricing ScenarioMore.dbNothingOff Scenario.now Scenario.headphones)
    = Some 100 /\
  r_appliedDiscounts
    (calculateProductPricing ScenarioMore.dbNothingOff Scenario.now Scenario.headphones)
    = None.
Proof.
  apply (worthless_discount_not_applied
           ScenarioMore.dbNothingOff Scenario.now Scenario.headphones).
  intros d [<-|[]]. left. reflexivity.
Defined.

End PricingMore.

(** ** Collections *)

Module StoreFacts.
Section Store.
Context {T : Type} (idOf : T -> ObjectId).


Lemma findById_In id coll x :
  BaseRepository.findById idOf id coll = Some x -> In x coll.
Proof.
  unfold BaseRepository.findById. intro H. exact (proj1 (find_some _ _ H)).
Qed.

Lemma findById_none id coll :
  BaseRepository.findById idOf id coll = None <->
  forall x, In x coll -> idOf x <> id.
Proof.
  unfold BaseRepository.findById. rewrite find_none_iff. split; intros H x Hx.
  - intro E. specialize (H x Hx). apply String.eqb_neq in H. contradiction.
  - apply String.eqb_neq. apply H, Hx.
Qed.

(** Looking up after an insert. *)
Lemma findById_create id doc coll :
  BaseRepository.findById idOf id (snd (BaseRepository.create doc coll)) =
  match BaseRepository.findById idOf id coll with
  | Some x => Some x
  | None => if String.eqb (idOf doc) id then Some doc else None
  end.
Proof.
  unfold BaseRepository.create, BaseRepository.findById. simpl.
  induction coll as [|a coll IH]; simpl.
  - reflexivity.
  - destruct (String.eqb (idOf a) id); [reflexivity|exact IH].
Qed.

(** What [findByIdAndUpdate] returns. *)
Lemma update_result id f coll :
  fst (BaseRepository.update idOf id f coll) =
  option_map f (BaseRepository.findById idOf id coll).
Proof.
  unfold BaseRepository.update, BaseRepository.findById.
  induction coll as [|a coll IH]; simpl; [reflexivity|].
  destruct (String.eqb (idOf a) id); [reflexivity|].
  destruct (BaseRepository.findByIdAndUpdate idOf id f coll). exact IH.
Qed.

(** Looking up after an update that keeps ids. *)
Lemma findById_update i id f coll :
  (forall x, idOf (f x) = idOf x) ->
  BaseRepository.findById idOf i (snd (BaseRepository.update idOf id f coll)) =
  if String.eqb i id then option_map f (BaseRepository.findById idOf i coll)
  else BaseRepository.findById idOf i coll.
Proof.
  intro Hid. unfold BaseRepository.update, BaseRepository.findById.
  induction coll as [|a coll IH]; simpl.
  - destruct (String.eqb i id); reflexivity.
  - destruct (String.eqb (idOf a) id) eqn:Ea.
    + apply String.eqb_eq in Ea. simpl. rewrite Hid.
      destruct (String.eqb i id) eqn:Ei.
      * apply String.eqb_eq in Ei. subst. rewrite String.eqb_refl. reflexivity.
      * rewrite Ea. rewrite String.eqb_sym, Ei. reflexivity.
    + destruct (BaseRepository.findByIdAndUpdate idOf id f coll) as [r rest] eqn:Er.
      simpl in *. destruct (String.eqb (idOf a) i) eqn:Eai.
      * apply String.eqb_eq in Eai. subst i. rewrite String.eqb_sym in Ea.
        rewrite String.eqb_sym, Ea. reflexivity.
      * exact IH.
Qed.

Lemma update_length id f coll :
  List.length (snd (BaseRepository.update idOf id f coll)) = List.length coll.
Proof.
  unfold BaseRepository.update.
  induction coll as [|a coll IH]; simpl; [reflexivity|].
  destruct (String.eqb (idOf a) id); [reflexivity|].
  destruct (BaseRepository.findByIdAndUpdate idOf id f coll). simpl in *. now f_equal.
Qed.

(** What [delete] returns. *)
Lemma delete_result id coll :
  fst (BaseRepository.delete idOf id coll) =
  match BaseRepository.findById idOf id coll with Some _ => true | None => false end.
Proof.
  unfold BaseRepository.delete, BaseRepository.findById.
  induction coll as [|a coll IH]; simpl; [reflexivity|].
  destruct (String.eqb (idOf a) id); [reflexivity|].
  destruct (BaseRepository.findByIdAndDelete idOf id coll) as [r rest]. exact IH.
Qed.

(** Looking up another id after a delete. *)
Lemma findById_delete_other i id coll :
  i <> id ->
  BaseRepository.findById idOf i (snd (BaseRepository.delete idOf id coll)) =
  BaseRepository.findById idOf i coll.
Proof.
  intro Hne. unfold BaseRepository.delete, BaseRepository.findById.
  induction coll as [|a coll IH]; simpl; [reflexivity|].
  destruct (String.eqb (idOf a) id) eqn:Ea.
  - apply String.eqb_eq in Ea. simpl.
    destruct (String.eqb (idOf a) i) eqn:Eai; [|reflexivity].
    apply String.eqb_eq in Eai. congruence.
  - destruct (BaseRepository.findByIdAndDelete idOf id coll) as [r rest]. simpl in *.
    destruct (String.eqb (idOf a) i); [reflexivity|exact IH].
Qed.

(** With unique ids the deleted id is gone. *)
Lemma findById_delete_same id coll :
  NoDup (map idOf coll) ->
  BaseRepository.findById idOf id (snd (BaseRepository.delete idOf id coll)) = None.
Proof.
  intro Hnd. unfold BaseRepository.delete, BaseRepository.findById.
  induction coll as [|a coll IH]; simpl; [reflexivity|].
  inversion Hnd as [|? ? Hnotin Hnd']; subst.
  destruct (String.eqb (idOf a) id) eqn:Ea.
  - apply String.eqb_eq in Ea. simpl. apply find_none_iff.
    intros y Hy. apply String.eqb_neq. intro E. apply Hnotin.
    rewrite Ea, <- E. now apply in_map.
  - destruct (BaseRepository.findByIdAndDelete idOf id coll) as [r rest]. simpl in *.
    rewrite Ea. exact (IH Hnd').
Qed.

(** A delete only ever removes documents. *)
Lemma delete_incl id coll x :
  In x (snd (BaseRepository.delete idOf id coll)) -> In x coll.
Proof.
  unfold BaseRepository.delete.
  induction coll as [|a coll IH]; simpl; [tauto|].
  destruct (String.eqb (idOf a) id).
  - simpl. auto.
  - destruct (BaseRepository.findByIdAndDelete idOf id coll) as [r rest]. simpl in *.
    intros [H|H]; auto.
Qed.
End Store.
End StoreFacts.

(** ** Validity and usage counting *)

Module Validity.
Import DiscountUsage.
Local Open Scope string_scope.
Local Open Scope list_scope.

(** The evaluator is the filter of the pricing resolution together with the
    usage test. *)
Lemma isDiscountValid_split now id db :
  DiscountRepository.isDiscountValid now id db =
  (ProductsService.isValidNow now (DiscountRepository.findById id db) &&
   match DiscountRepository.findById id db with
   | Some d => negb (capReached d)
   | None => true
   end)%bool.
Proof.
  unfold DiscountRepository.isDiscountValid, ProductsService.isValidNow, capReached.
  destruct (DiscountRepository.findById id db) as [d|]; [|reflexivity].
  destruct (d_isActive d); simpl; [|reflexivity].
  destruct (d_startDate d >? now)%Z eqn:E1, (d_endDate d <? now)%Z eqn:E2,
           (d_startDate d <=? now)%Z eqn:E3, (d_endDate d >=? now)%Z eqn:E4;
    simpl;
    try (apply Z.gtb_lt in E1); try (apply Z.ltb_lt in E2);
    try (apply Z.leb_le in E3); try (apply Z.geb_le in E4);
    try (rewrite Z.gtb_ltb in E1; apply Z.ltb_ge in E1);
    try (apply Z.ltb_ge in E2); try (apply Z.leb_gt in E3);
    try (rewrite Z.geb_leb in E4; apply Z.leb_gt in E4);
    try lia; try reflexivity;
    destruct (d_maxUsageCount d) as [m|]; try reflexivity;
    destruct (truthyNumber m && Qle_bool m (d_usageCount d))%bool; reflexivity.
Qed.

(** X5.  The repository's validity evaluator accepts a discount id exactly
    when it resolves to a stored discount that is active, whose window
    contains [now], and whose usage counter is below its cap if it has one
    (a cap of 0 counting as none).  These are the discounts the filter of the
    pricing resolution accepts, less those that have reached their cap. *)
Theorem isDiscountValid_iff now id db :
  DiscountRepository.isDiscountValid now id db = true <->
  exists d,
    DiscountRepository.findById id db = Some d /\
    ProductsService.isValidNow now (Some d) = true /\
    d_isActive d = true /\ (d_startDate d <= now <= d_endDate d)%Z /\
    (forall m, d_maxUsageCount d = Some m -> ~ m == 0 -> d_usageCount d < m).
Proof.
  rewrite isDiscountValid_split.
  destruct (DiscountRepository.findById id db) as [d|]; simpl.
  - assert (Hfilter : (if negb (d_isActive d) then false
                       else ((d_startDate d <=? now)%Z && (d_endDate d >=? now)%Z)%bool)
                      = true <->
                      d_isActive d = true /\ (d_startDate d <= now <= d_endDate d)%Z).
    { destruct (d_isActive d); simpl.
      - rewrite andb_true_iff, Z.leb_le, Z.geb_le. tauto.
      - split; [discriminate|]. intros [H _]. discriminate H. }
    assert (Hcap : negb (capReached d) = true <->
                   forall m, d_maxUsageCount d = Some m -> ~ m == 0 -> d_usageCount d < m).
    { unfold capReached, truthyNumber. destruct (d_maxUsageCount d) as [m|]; simpl.
      - rewrite negb_true_iff, andb_false_iff, negb_false_iff. split.
        + intros H m0 [= <-] Hm. destruct H as [H|H].
          * apply Qeq_bool_iff in H. contradiction.
          * apply Qnot_le_lt. intro Hle. apply Qle_bool_iff in Hle. congruence.
        + intro H. destruct (Qeq_bool m 0) eqn:E; [left; reflexivity|right].
          assert (Hm : ~ m == 0) by (intro Hc; apply Qeq_bool_iff in Hc; congruence).
          specialize (H m eq_refl Hm).
          destruct (Qle_bool m (d_usageCount d)) eqn:El; [|reflexivity].
          apply Qle_bool_iff in El. lra.
      - split; [intros _ m0 H; discriminate H|reflexivity]. }
    rewrite andb_true_iff, Hcap. split.
    + intros [H1 H2]. exists d. split; [reflexivity|]. split; [exact H1|].
      apply Hfilter in H1. tauto.
    + intros (d0 & [= <-] & H1 & _ & _ & H2). split; assumption.
  - split; [discriminate|]. intros (d0 & H & _). discriminate H.
Qed.

Lemma isDiscountValid_iff_witness :
  exists d,
    DiscountRepository.findById "dcap" ScenarioMore.dbAlmostCapped = Some d /\
    d_isActive d = true /\ d_usageCount d < 5.
Proof.
  destruct (proj1 (isDiscountValid_iff Scenario.now "dcap" ScenarioMore.dbAlmostCapped)
              eq_refl) as (d & Hd & _ & Ha & _ & Hcap).
  exists d. split; [exact Hd|]. split; [exact Ha|].
  apply Hcap.
  - injection Hd as <-. reflexivity.
  - intro H. discriminate H.
Defined.

(** X6.  [findActiveDiscounts] lists every discount the evaluator accepts,
    and whatever it lists is stored, active and inside its window. *)
Theorem findActiveDiscounts_complete_and_sound now db :
  (forall id, DiscountRepository.isDiscountValid now id db = true ->
     exists d, DiscountRepository.findById id db = Some d /\
               In d (DiscountRepository.findActiveDiscounts now db)) /\
  (forall d, In d (DiscountRepository.findActiveDiscounts now db) ->
     In d (discounts db) /\ d_isActive d = true /\
     (d_startDate d <= now <= d_endDate d)%Z).
Proof.
  split.
  - intros id H. rewrite isDiscountValid_split in H.
    apply andb_true_iff in H. destruct H as [H _].
    destruct (DiscountRepository.findById id db) as [d|] eqn:Ef; [|discriminate].
    exists d. split; [reflexivity|].
    unfold DiscountRepository.findActiveDiscounts, BaseRepository.findAll.
    apply filter_In. split.
    + exact (StoreFacts.findById_In d_id _ _ _ Ef).
    + simpl in H. destruct (d_isActive d); [|discriminate]. simpl in *.
      apply andb_true_iff in H. destruct H as [Hs He].
      rewrite Hs. simpl. apply Z.leb_le. apply Z.geb_le in He. exact He.
  - intros d H. unfold DiscountRepository.findActiveDiscounts, BaseRepository.findAll in H.
    apply filter_In in H. destruct H as [Hin H].
    apply andb_true_iff in H. destruct H as [H He].
    apply andb_true_iff in H. destruct H as [Ha Hs].
    apply Z.leb_le in Hs, He. auto.
Qed.

Lemma findActiveDiscounts_complete_and_sound_witness :
  In Scenario.summer20 (DiscountRepository.findActiveDiscounts Scenario.now Scenario.dbTwo).
Proof.
  destruct (findActiveDiscounts_complete_and_sound Scenario.now Scenario.dbTwo) as [H _].
  destruct (H "d20" eq_refl) as (d & Hd & Hin).
  injection Hd as <-. exact Hin.
Defined.

Lemma incUsageCount_id d : d_id (incUsageCount d) = d_id d.
Proof. reflexivity. Qed.

Lemma update_none {T} (idOf : T -> ObjectId) id f coll :
  BaseRepository.findById idOf id coll = None ->
  BaseRepository.update idOf id f coll = (None, coll).
Proof.
  unfold BaseRepository.update, BaseRepository.findById.
  induction coll as [|a coll IH]; simpl; [reflexivity|].
  destruct (String.eqb (idOf a) id); [discriminate|].
  intro H. rewrite (IH H). reflexivity.
Qed.

Lemma findById_increment i id db :
  DiscountRepository.findById i (snd (incrementUsageCount id db)) =
  if String.eqb i id then option_map incUsageCount (DiscountRepository.findById i db)
  else DiscountRepository.findById i db.
Proof.
  unfold incrementUsageCount, DiscountRepository.findById.
  pose proof (StoreFacts.findById_update d_id i id incUsageCount (discounts db)
                incUsageCount_id) as H.
  destruct (BaseRepository.update d_id id incUsageCount (discounts db)) as [u coll].
  exact H.
Qed.

(** X7.  [incrementUsageCount] on an unknown id changes nothing and yields
    null.  On a stored discount it yields that discount with [usageCount]
    one higher and every other field as before, stores it under the same id,
    and leaves every other discount, the products and the links alone. *)
Theorem incrementUsageCount_effect id db :
  (DiscountRepository.findById id db = None ->
     incrementUsageCount id db = (None, db)) /\
  (forall d, DiscountRepository.findById id db = Some d ->
     let u := incUsageCount d in
     fst (incrementUsageCount id db) = Some u /\
     d_usageCount u == d_usageCount d + 1 /\
     DiscountRepository.findById id (snd (incrementUsageCount id db)) = Some u /\
     (forall j, j <> id ->
        DiscountRepository.findById j (snd (incrementUsageCount id db)) =
        DiscountRepository.findById j db) /\
     products (snd (incrementUsageCount id db)) = products db /\
     productDiscounts (snd (incrementUsageCount id db)) = productDiscounts db /\
     List.length (discounts (snd (incrementUsageCount id db)))
       = List.length (discounts db)).
Proof.
  split.
  - intro H. unfold incrementUsageCount, DiscountRepository.findById in *.
    rewrite (update_none d_id id incUsageCount _ H). destruct db; reflexivity.
  - intros d Hd u. repeat split.
    + unfold incrementUsageCount.
      pose proof (StoreFacts.update_result d_id id incUsageCount (discounts db)) as H.
      destruct (BaseRepository.update d_id id incUsageCount (discounts db)) as [r coll].
      simpl in *. rewrite H. unfold DiscountRepository.findById in Hd. rewrite Hd.
      reflexivity.
    + rewrite findById_increment, String.eqb_refl, Hd. reflexivity.
    + intros j Hj. rewrite findById_increment.
      apply String.eqb_neq in Hj. rewrite Hj. reflexivity.
    + unfold incrementUsageCount.
      destruct (BaseRepository.update d_id id incUsageCount (discounts db)). reflexivity.
    + unfold incrementUsageCount.
      destruct (BaseRepository.update d_id id incUsageCount (discounts db)). reflexivity.
    + unfold incrementUsageCount.
      pose proof (StoreFacts.update_length d_id id incUsageCount (discounts db)) as H.
      destruct (BaseRepository.update d_id id incUsageCount (discounts db)). exact H.
Qed.

Lemma incrementUsageCount_effect_witness :
  fst (incrementUsageCount "dcap" ScenarioMore.dbAlmostCapped)
    = Some (incUsageCount ScenarioMore.almostCapped) /\
  DiscountRepository.findById "d10" (snd (incrementUsageCount "dcap" ScenarioMore.dbAlmostCapped))
    = Some Scenario.spring10.
Proof.
  destruct (incrementUsageCount_effect "dcap" ScenarioMore.dbAlmostCapped) as [_ H].
  destruct (H ScenarioMore.almostCapped eq_refl) as (H1 & _ & _ & H4 & _).
  split; [exact H1|]. rewrite H4; [reflexivity|discriminate].
Defined.

Lemma capReached_increment d : capReached d = true -> capReached (incUsageCount d) = true.
Proof.
  unfold capReached. simpl. destruct (d_maxUsageCount d) as [m|]; [|discriminate].
  intro H. apply andb_true_iff in H. destruct H as [Ht Hle].
  rewrite Ht. simpl. apply Qle_bool_iff in Hle. apply Qle_bool_iff. lra.
Qed.

(** X8.  The redemption that reaches the cap ends the discount's validity:
    once [usageCount + 1] is at least a positive [maxUsageCount], the
    evaluator rejects the discount after the increment. *)
Theorem increment_to_cap_invalidates now id db d m :
  DiscountRepository.findById id db = Some d ->
  d_maxUsageCount d = Some m -> 0 < m -> m <= d_usageCount d + 1 ->
  DiscountRepository.isDiscountValid now id (snd (incrementUsageCount id db)) = false.
Proof.
  intros Hd Hm Hpos Hle.
  rewrite isDiscountValid_split, findById_increment,
    String.eqb_refl, Hd. simpl.
  apply andb_false_iff. right.
  rewrite negb_false_iff. unfold capReached. simpl. rewrite Hm.
  apply andb_true_iff. split.
  - unfold truthyNumber. rewrite negb_true_iff.
    destruct (Qeq_bool m 0) eqn:E; [|reflexivity].
    apply Qeq_bool_iff in E. lra.
  - apply Qle_bool_iff. exact Hle.
Qed.

Lemma increment_to_cap_invalidates_witness :
  DiscountRepository.isDiscountValid Scenario.now "dcap" ScenarioMore.dbAlmostCapped = true /\
  DiscountRepository.isDiscountValid Scenario.now "dcap"
    (snd (incrementUsageCount "dcap" ScenarioMore.dbAlmostCapped)) = false.
Proof.
  split; [reflexivity|].
  apply (increment_to_cap_invalidates Scenario.now "dcap" ScenarioMore.dbAlmostCapped
           ScenarioMore.almostCapped 5).
  - reflexivity.
  - reflexivity.
  - reflexivity.
  - simpl. lra.
Defined.

(** X9.  Counting a redemption never revives a discount: whatever discount
    is incremented, a discount the evaluator rejected is still rejected. *)
Theorem increment_never_revives now id j db :
  DiscountRepository.isDiscountValid now id db = false ->
  DiscountRepository.isDiscountValid now id (snd (incrementUsageCount j db)) = false.
Proof.
  rewrite !isDiscountValid_split, findById_increment.
  destruct (String.eqb id j); [|tauto].
  destruct (DiscountRepository.findById id db) as [d|]; simpl; [|tauto].
  intro H. apply andb_false_iff in H. apply andb_false_iff.
  destruct H as [H|H]; [left; exact H|right].
  rewrite negb_false_iff in *. now apply capReached_increment.
Qed.

Lemma increment_never_revives_witness :
  DiscountRepository.isDiscountValid Scenario.now "dcap"
    (snd (incrementUsageCount "dcap" Scenario.dbCapped)) = false.
Proof.
  apply (increment_never_revives Scenario.now "dcap" "dcap" Scenario.dbCapped).
  reflexivity.
Defined.

End Validity.

(** ** More on discount management *)

Module ManagementMore.
Import DiscountsService.
Local Open Scope string_scope.
Local Open Scope list_scope.

Lemma upperAscii_idem c : upperAscii (upperAscii c) = upperAscii c.
Proof. destruct c as [[] [] [] [] [] [] [] []]; reflexivity. Qed.

Lemma toUpperCase_idem s : toUpperCase (toUpperCase s) = toUpperCase s.
Proof.
  induction s as [|c s IH]; simpl; [reflexivity|].
  now rewrite upperAscii_idem, IH.
Qed.

Lemma find_snoc {A} (f : A -> bool) l x :
  find f (l ++ [x]) =
  match find f l with
  | Some y => Some y
  | None => if f x then Some x else None
  end.
Proof.
  induction l as [|a l IH]; simpl; [reflexivity|].
  destruct (f a); [reflexivity|exact IH].
Qed.

Lemma findByCode_none c db :
  DiscountRepository.findByCode c db = None <->
  forall d, In d (discounts db) -> d_code d <> Some (toUpperCase c).
Proof.
  unfold DiscountRepository.findByCode, BaseRepository.findOne.
  rewrite find_none_iff. unfold DiscountRepository.codeIs.
  split; intros H d Hd; specialize (H d Hd).
  - intro E. rewrite E, String.eqb_refl in H. discriminate.
  - destruct (d_code d) as [c'|]; [|reflexivity].
    apply String.eqb_neq. congruence.
Qed.


(** What a successful [create] implies. *)
Lemma create_ok_inv newId dto db doc db' :
  create newId dto db = (Ok doc, db') ->
  (c_startDate dto < c_endDate dto)%Z /\
  (forall c, c_code dto = Some c -> c <> "" ->
     DiscountRepository.findByCode c db = None) /\
  doc = newDiscount newId dto (c_startDate dto) (c_endDate dto) /\
  db' = mkDb (products db) (discounts db ++ [doc]) (productDiscounts db).
Proof.
  unfold create, bind, query, throw, ret, exec, saveDiscount, BaseRepository.create.
  destruct (c_code dto) as [c|] eqn:Ec; simpl.
  - destruct (truthyString c) eqn:Et.
    + destruct (DiscountRepository.findByCode c db) eqn:Ef; simpl; [discriminate|].
      destruct (c_startDate dto >=? c_endDate dto)%Z eqn:E; [discriminate|].
      intros [= <- <-]. repeat split.
      * destruct (Z.geb_spec (c_startDate dto) (c_endDate dto)); [discriminate|lia].
      * intros c0 [= <-] _. exact Ef.
    + simpl. destruct (c_startDate dto >=? c_endDate dto)%Z eqn:E; [discriminate|].
      intros [= <- <-]. repeat split.
      * destruct (Z.geb_spec (c_startDate dto) (c_endDate dto)); [discriminate|lia].
      * intros c0 [= <-] Hne. destruct c; [congruence|discriminate].
  - destruct (c_startDate dto >=? c_endDate dto)%Z eqn:E; [discriminate|].
    intros [= <- <-]. repeat split.
    + destruct (Z.geb_spec (c_startDate dto) (c_endDate dto)); [discriminate|lia].
    + intros c0 [=].
Qed.



(** X11.  A creation request whose non-empty code equals a stored code up to
    case is refused with a conflict, whatever its dates, and nothing is
    written. *)
Theorem create_rejects_taken_code newId dto db c e :
  c_code dto = Some c -> c <> "" ->
  In e (discounts db) -> d_code e = Some (toUpperCase c) ->
  create newId dto db
    = (Throw (ConflictException "Discount with this code already exists"), db).
Proof.
  intros Hc Hne He Hcode.
  unfold create, bind, query, throw, ret. rewrite Hc. simpl.
  destruct c as [|a c]; [congruence|]. cbn [truthyString].
  destruct (DiscountRepository.findByCode (String a c) db) eqn:Ef; [reflexivity|].
  exfalso. exact (proj1 (findByCode_none _ _) Ef e He Hcode).
Qed.

Lemma create_rejects_taken_code_witness :
  create "d-new" ScenarioMore.summerAgain Scenario.dbPlain
    = (Throw (ConflictException "Discount with this code already exists"), Scenario.dbPlain).
Proof.
  apply (create_rejects_taken_code "d-new" ScenarioMore.summerAgain Scenario.dbPlain
           "Summer20" Scenario.summer20).
  - reflexivity.
  - discriminate.
  - left. reflexivity.
  - reflexivity.
Defined.

Lemma present_snoc {A} (l : list (option A)) (o : option A) :
  ProductsService.present (l ++ [o]) =
  ProductsService.present l ++ match o with Some a => [a] | None => [] end.
Proof.
  induction l as [|[x|] l IH]; simpl.
  - destruct o; reflexivity.
  - now rewrite IH.
  - exact IH.
Qed.

Lemma NoDup_snoc {A} (l : list A) (x : A) :
  NoDup l -> ~ In x l -> NoDup (l ++ [x]).
Proof.
  intros Hl Hx. induction Hl as [|a l Ha Hl IH]; simpl.
  - constructor; [tauto|constructor].
  - constructor.
    + intro H. apply in_app_or in H. destruct H as [H|[H|[]]].
      * contradiction.
      * apply Hx. left. symmetry. exact H.
    + apply IH. intro H. apply Hx. now right.
Qed.

(** X12.  Successful creations keep the stored codes canonical: if the
    stored codes are upper-case and pairwise different, they still are after
    [create] has persisted a discount (whose code, if any, is not empty). *)
Theorem create_keeps_codes_canonical newId dto db doc db' :
  CodesCanonical db ->
  c_code dto <> Some "" ->
  create newId dto db = (Ok doc, db') ->
  CodesCanonical db'.
Proof.
  intros [Hnd Hup] Hne Hc.
  destruct (create_ok_inv _ _ _ _ _ Hc) as (_ & Hfree & -> & ->).
  unfold CodesCanonical, storedCodes in *. cbn [discounts].
  rewrite map_app. cbn [map]. rewrite present_snoc.
  change (d_code (newDiscount newId dto (c_startDate dto) (c_endDate dto)))
    with (option_map toUpperCase (c_code dto)).
  destruct (c_code dto) as [c|] eqn:Ec; cbn [option_map].
  - assert (Hc0 : c <> "") by congruence.
    pose proof (proj1 (findByCode_none _ _) (Hfree c eq_refl Hc0)) as Hnone.
    split.
    + apply NoDup_snoc; [assumption|].
      rewrite present_In, in_map_iff. intros (d & Hd & Hin).
      exact (Hnone d Hin Hd).
    + intros x Hx. apply in_app_or in Hx. destruct Hx as [Hx|[<-|[]]].
      * apply Hup, Hx.
      * apply toUpperCase_idem.
  - rewrite app_nil_r. split; assumption.
Qed.

Lemma create_keeps_codes_canonical_witness :
  CodesCanonical Scenario.dbPlain /\
  forall doc db',
    create "d-new" ScenarioMore.autumn Scenario.dbPlain = (Ok doc, db') ->
    CodesCanonical db'.
Proof.
  assert (H : CodesCanonical Scenario.dbPlain).
  { split.
    - simpl. constructor; [simpl; tauto|constructor].
    - intros c [<-|[]]. reflexivity. }
  split; [exact H|].
  intros doc db'.
  apply (create_keeps_codes_canonical "d-new" ScenarioMore.autumn Scenario.dbPlain doc db' H).
  discriminate.
Defined.



(** An update that carries a code some stored discount has is refused, even
    when that discount is the one being updated. *)
Lemma update_taken_code_conflict id dto db d x :
  DiscountRepository.findById id db = Some d ->
  truthyCode (u_code dto) = true ->
  DiscountRepository.findByCode (codeOr (u_code dto)) db = Some x ->
  update id dto db
    = (Throw (ConflictException "Discount with this code already exists"), db).
Proof.
  intros Hd Ht Hx. unfold update, findOne, bind, query, throw, ret.
  rewrite Hd, Ht. simpl. rewrite Hx. reflexivity.
Qed.




(** X14.  An [update] that carries both dates in the wrong order is refused
    with a validation error, whatever else it carries, and nothing is
    written. *)
Theorem update_rejects_unordered_dates id dto db d s e :
  DiscountRepository.findById id db = Some d ->
  u_startDate dto = Some s -> u_endDate dto = Some e -> ~ (s < e)%Z ->
  exists err, update id dto db = (Throw err, db) /\ isValidationError err = true.
Proof.
  intros Hd Hs He Hord.
  assert (Hge : (s >=? e)%Z = true) by (apply Z.geb_le; lia).
  unfold update, findOne, bind, query, throw, ret, exec. rewrite Hd. simpl.
  destruct (truthyCode (u_code dto)); simpl;
    [destruct (DiscountRepository.findByCode (codeOr (u_code dto)) db) as [x|];
     simpl|];
    rewrite ?Hs, ?He, ?Hge; simpl; eexists; split; reflexivity.
Qed.

Lemma update_rejects_unordered_dates_witness :
  exists err,
    update "d20" Scenario.bothBackwards Scenario.dbTwo = (Throw err, Scenario.dbTwo) /\
    isValidationError err = true.
Proof.
  apply (update_rejects_unordered_dates "d20" Scenario.bothBackwards Scenario.dbTwo
           Scenario.summer20 3000%Z 2500%Z).
  - reflexivity.
  - reflexivity.
  - reflexivity.
  - lia.
Defined.



(** What [remove] does to a stored discount. *)
Lemma remove_stored id db d :
  DiscountRepository.findById id db = Some d ->
  remove id db =
  (Ok tt,
   mkDb (products db) (snd (BaseRepository.delete d_id id (discounts db)))
     (productDiscounts db)).
Proof.
  intro Hd. unfold remove, findOne, bind, query, throw, ret, exec. rewrite Hd. simpl.
  pose proof (StoreFacts.delete_result d_id id (discounts db)) as Hr.
  unfold DiscountRepository.findById in Hd. rewrite Hd in Hr.
  destruct (BaseRepository.delete d_id id (discounts db)) as [b coll].
  simpl in *. subst b. reflexivity.
Qed.

(** X16.  [remove] deletes the stored discount and nothing else: afterwards
    its id is unknown (ids being unique), every other discount is found as
    before, and the product-discount links are left in place, those of the
    removed discount included. *)
Theorem remove_effect id db d :
  NoDup (map d_id (discounts db)) ->
  DiscountRepository.findById id db = Some d ->
  exists db',
    remove id db = (Ok tt, db') /\
    DiscountRepository.findById id db' = None /\
    (forall j, j <> id ->
       DiscountRepository.findById j db' = DiscountRepository.findById j db) /\
    productDiscounts db' = productDiscounts db /\
    products db' = products db.
Proof.
  intros Hnd Hd. eexists. split; [apply (remove_stored id db d Hd)|].
  unfold DiscountRepository.findById. cbn [discounts productDiscounts products].
  repeat split.
  - apply StoreFacts.findById_delete_same, Hnd.
  - intros j Hj. apply StoreFacts.findById_delete_other, Hj.
Qed.

Lemma remove_effect_witness :
  exists db',
    remove "d20" Scenario.dbTwo = (Ok tt, db') /\
    DiscountRepository.findById "d20" db' = None /\
    productDiscounts db' = productDiscounts Scenario.dbTwo.
Proof.
  destruct (remove_effect "d20" Scenario.dbTwo Scenario.summer20)
    as (db' & Hr & Hgone & _ & Hlinks & _).
  - simpl. repeat constructor; simpl; intuition discriminate.
  - reflexivity.
  - exists db'. auto.
Defined.

(** X17.  A link whose discount is gone is harmless: a discount id that
    resolves to nothing is never listed in [appliedDiscounts].  So once
    [remove] has deleted a discount, no product is priced with it, although
    its links are still stored; [getProductsByDiscount] no longer shows them
    but answers NotFound. *)
Theorem removed_discount_never_applied id db d :
  NoDup (map d_id (discounts db)) ->
  DiscountRepository.findById id db = Some d ->
  exists db',
    remove id db = (Ok tt, db') /\
    ProductDiscountRepository.findByDiscount id db'
      = ProductDiscountRepository.findByDiscount id db /\
    DiscountsListing.getProductsByDiscount id db'
      = (Throw (NotFoundException ("Discount with ID " ++ id ++ " not found")), db') /\
    forall now product ads a,
      r_appliedDiscounts (ProductsService.calculateProductPricing db' now product)
        = Some ads ->
      In a ads -> a_id a <> id.
Proof.
  intros Hnd Hd.
  set (db' := mkDb (products db) (snd (BaseRepository.delete d_id id (discounts db)))
                (productDiscounts db)).
  assert (Hgone : DiscountRepository.findById id db' = None)
    by (apply StoreFacts.findById_delete_same, Hnd).
  exists db'. split; [exact (remove_stored id db d Hd)|]. split; [|split].
  - reflexivity.
  - unfold DiscountsListing.getProductsByDiscount, findOne, bind, query, throw, ret.
    rewrite Hgone. reflexivity.
  - intros now product ads a Hads Ha Hid.
    destruct (Pricing.applied_is_valid db' now product ads a Hads Ha) as (w & Hw & ->).
    destruct (Pricing.validDiscounts_spec db' now product w Hw) as (Hfw & _).
    simpl in Hid. rewrite Hid in Hfw. congruence.
Qed.

Lemma removed_discount_never_applied_witness :
  exists db',
    remove "d20" Scenario.dbTwo = (Ok tt, db') /\
    forall ads a,
      r_appliedDiscounts
        (ProductsService.calculateProductPricing db' Scenario.now Scenario.cable)
        = Some ads ->
      In a ads -> a_id a <> "d20".
Proof.
  destruct (removed_discount_never_applied "d20" Scenario.dbTwo Scenario.summer20)
    as (db' & Hr & _ & _ & Hnever).
  - simpl. repeat constructor; simpl; intuition discriminate.
  - reflexivity.
  - exists db'. split; [exact Hr|]. apply Hnever.
Defined.

(** *** Linking *)








End ManagementMore.

(** ** Pagination *)

Module PaginationFacts.
Local Open Scope Z_scope.

(** [Math.ceil(total / limit)] is the least number of pages of [limit]
    items that hold [total] items. *)
Lemma totalPages_bounds limit total :
  0 < limit ->
  (Qceiling (inject_Z total / inject_Z limit) - 1) * limit < total
    <= Qceiling (inject_Z total / inject_Z limit) * limit.
Proof.
  intro Hl.
  set (x := (inject_Z total / inject_Z limit)%Q).
  assert (HL : (inject_Z 0 < inject_Z limit)%Q) by (rewrite <- Zlt_Qlt; exact Hl).
  change (inject_Z 0) with 0%Q in HL.
  assert (Hx : (x * inject_Z limit == inject_Z total)%Q).
  { unfold x. field. intro E. rewrite E in HL. discriminate HL. }
  pose proof (Qle_ceiling x) as Hup.
  pose proof (Qceiling_lt x) as Hlow.
  split.
  - rewrite Zlt_Qlt, inject_Z_mult, <- Hx.
    apply Qmult_lt_compat_r; assumption.
  - rewrite Zle_Qle, inject_Z_mult, <- Hx.
    apply Qmult_le_compat_r; [assumption|]. apply Qlt_le_weak, HL.
Qed.

(** X21.  For a positive [limit] and a count [total], the [meta] of a page
    is consistent: [totalPages] is the least number of pages that hold
    [total] items (0 for an empty result), [hasNextPage] is set exactly on
    the pages before the last, and [hasPrevPage] exactly on the pages after
    the first. *)
Theorem meta_consistent page limit total :
  0 < limit -> 0 <= total ->
  (m_totalPages (Pagination.meta page limit total) - 1) * limit < total
    <= m_totalPages (Pagination.meta page limit total) * limit /\
  (total = 0 -> m_totalPages (Pagination.meta page limit total) = 0) /\
  (m_hasNextPage (Pagination.meta page limit total) = true <->
     page < m_totalPages (Pagination.meta page limit total)) /\
  (m_hasPrevPage (Pagination.meta page limit total) = true <-> 1 < page).
Proof.
  intros Hl Ht. cbn [Pagination.meta m_totalPages m_hasNextPage m_hasPrevPage].
  pose proof (totalPages_bounds limit total Hl) as [Hlow Hup].
  set (c := Qceiling (inject_Z total / inject_Z limit)) in *.
  repeat split.
  - exact Hlow.
  - exact Hup.
  - intros ->. nia.
  - intro H. apply Z.ltb_lt in H. nia.
  - intro H. apply Z.ltb_lt. nia.
  - intro H. apply Z.gtb_lt in H. lia.
  - intro H. apply Z.gtb_lt. lia.
Qed.

Lemma meta_consistent_witness :
  m_totalPages (Pagination.meta 3 10 25) = 3 /\
  m_hasNextPage (Pagination.meta 2 10 25) = true /\
  m_hasNextPage (Pagination.meta 3 10 25) = false.
Proof.
  destruct (meta_consistent 3 10 25) as ((Hlow & Hup) & _ & Hnext3 & _); [lia|lia|].
  destruct (meta_consistent 2 10 25) as (_ & _ & Hnext2 & _); [lia|lia|].
  assert (E : m_totalPages (Pagination.meta 3 10 25) = 3) by lia.
  assert (E2 : m_totalPages (Pagination.meta 2 10 25) = 3) by exact E.
  split; [exact E|]. split.
  - apply Hnext2. rewrite E2. lia.
  - apply Bool.not_true_is_false. intro Hb.
    apply Hnext3 in Hb. rewrite E in Hb. lia.
Defined.

Section Paging.
Context {T : Type} (sort : list T -> list T).
Hypothesis sort_length : forall l, List.length (sort l) = List.length l.

Lemma page_length filter page limit coll :
  1 <= page -> 1 <= limit ->
  Z.of_nat (List.length (fst (Pagination.findWithPagination sort filter page limit coll)))
  = Z.max 0 (Z.min limit
               (snd (Pagination.findWithPagination sort filter page limit coll)
                - (page - 1) * limit)).
Proof.
  intros Hp Hl. unfold Pagination.findWithPagination. cbn [fst snd].
  rewrite length_firstn, length_skipn, sort_length.
  set (n := List.length (List.filter filter coll)). nia.
Qed.

(** X22.  A page of [findWithPagination] holds the items of its slice and no
    more: with [total] matching documents, page [page] of size [limit] has
    [min(limit, total - (page-1)*limit)] items, none when that is negative.
    So a page is non-empty exactly up to [totalPages], and [hasNextPage] of
    the [meta] tells whether the next page has an item. *)
Theorem page_contents filter page limit coll :
  1 <= page -> 1 <= limit ->
  let data := fst (Pagination.findWithPagination sort filter page limit coll) in
  let total := snd (Pagination.findWithPagination sort filter page limit coll) in
  let next := fst (Pagination.findWithPagination sort filter (page + 1) limit coll) in
  total = Z.of_nat (List.length (List.filter filter coll)) /\
  Z.of_nat (List.length data) = Z.max 0 (Z.min limit (total - (page - 1) * limit)) /\
  (data <> [] <-> page <= m_totalPages (Pagination.meta page limit total)) /\
  (m_hasNextPage (Pagination.meta page limit total) = true <-> next <> []).
Proof.
  intros Hp Hl data total next.
  assert (Htotal : total = Z.of_nat (List.length (List.filter filter coll)))
    by reflexivity.
  assert (Hnn : 0 <= total) by (rewrite Htotal; lia).
  pose proof (page_length filter page limit coll Hp Hl) as Hlen.
  pose proof (page_length filter (page + 1) limit coll ltac:(lia) Hl) as Hlen'.
  fold data total in Hlen. fold next in Hlen'.
  change (snd (Pagination.findWithPagination sort filter (page + 1) limit coll))
    with total in Hlen'.
  pose proof (totalPages_bounds limit total ltac:(lia)) as [Hlow Hup].
  assert (Hnext : m_hasNextPage (Pagination.meta page limit total) = true <->
                  page * limit < total) by apply Z.ltb_lt.
  change (Qceiling (inject_Z total / inject_Z limit))
    with (m_totalPages (Pagination.meta page limit total)) in Hlow, Hup.
  set (c := m_totalPages (Pagination.meta page limit total)) in *.
  assert (Hne : forall l : list T, l <> [] <-> 0 < Z.of_nat (List.length l)).
  { intros [|a l]; simpl; split; intro H; try lia; try congruence. }
  split; [exact Htotal|]. split; [exact Hlen|]. split.
  - rewrite Hne, Hlen. split; intro H; nia.
  - rewrite Hnext, Hne, Hlen'. split; intro H; nia.
Qed.
End Paging.

Lemma page_contents_witness :
  List.length
    (fst (Pagination.findWithPagination (@rev Discount) (fun _ => true) 2 1
            (discounts Scenario.dbTwo))) = 1%nat /\
  m_hasNextPage (Pagination.meta 2 1 2) = false.
Proof.
  destruct (page_contents (@rev Discount) (@length_rev Discount) (fun _ => true) 2 1
              (discounts Scenario.dbTwo)) as (_ & Hlen & _ & Hnext); [lia|lia|].
  split.
  - apply Nat2Z.inj. rewrite Hlen. reflexivity.
  - apply Bool.not_true_is_false. intro Hb.
    apply (proj1 Hnext); [exact Hb|reflexivity].
Defined.

End PaginationFacts.

(** ** Product management *)

Module ProductsMore.
Import ProductsCrud.
Local Open Scope string_scope.
Local Open Scope list_scope.

Lemma findBySku_none sku db :
  ProductRepository.findBySku sku db = None <->
  forall e, In e (products db) -> p_sku e <> toUpperCase sku.
Proof.
  unfold ProductRepository.findBySku, BaseRepository.findOne.
  rewrite find_none_iff. split; intros H e He; specialize (H e He).
  - now apply String.eqb_neq.
  - now apply String.eqb_neq.
Qed.

Lemma findBySlug_none slug db :
  ProductRepository.findBySlug slug db = None <->
  forall e, In e (products db) -> p_slug e <> toLowerCase slug.
Proof.
  unfold ProductRepository.findBySlug, BaseRepository.findOne.
  rewrite find_none_iff. split; intros H e He; specialize (H e He).
  - now apply String.eqb_neq.
  - now apply String.eqb_neq.
Qed.

(** X23.  A product whose [plain] SKU equals a stored SKU up to case is
    refused with the SKU conflict; otherwise one whose [plain] slug equals a
    stored slug up to case is refused with the slug conflict.  Nothing is
    written in either case. *)
Theorem product_create_conflicts newId dto db e :
  plain (cp_sku dto) = true -> plain (cp_slug dto) = true ->
  In e (products db) ->
  (p_sku e = toUpperCase (cp_sku dto) ->
     create newId dto db
       = (Throw (ProductConflictException "sku" (cp_sku dto)), db)) /\
  (ProductRepository.findBySku (cp_sku dto) db = None ->
   p_slug e = toLowerCase (cp_slug dto) ->
     create newId dto db
       = (Throw (ProductConflictException "slug" (cp_slug dto)), db)).
Proof.
  intros _ _ He. split.
  - intro Hsku. unfold create, bind, query, throw.
    destruct (ProductRepository.findBySku (cp_sku dto) db) eqn:Ef; [reflexivity|].
    exfalso. exact (proj1 (findBySku_none _ _) Ef e He Hsku).
  - intros Hfree Hslug. unfold create, bind, query, throw. rewrite Hfree.
    destruct (ProductRepository.findBySlug (cp_slug dto) db) eqn:Ef; [reflexivity|].
    exfalso. exact (proj1 (findBySlug_none _ _) Ef e He Hslug).
Qed.

Lemma product_create_conflicts_witness :
  create "p9" ScenarioMore.headphonesAgain Scenario.dbTwo
    = (Throw (ConflictException "Product with sku 'wh-1000xm4' already exists"),
       Scenario.dbTwo).
Proof.
  destruct (product_create_conflicts "p9" ScenarioMore.headphonesAgain Scenario.dbTwo
              Scenario.headphones eq_refl eq_refl (or_introl eq_refl)) as [H _].
  apply H. reflexivity.
Defined.

(** X24.  A product created under a fresh id with [plain] name, SKU and slug,
    the SKU and slug being free, is stored with the slug lower-cased and the
    SKU upper-cased, and can be read back by id, and by slug and by SKU in
    any [plain] spelling of upper and lower case.  As no link mentions the
    new id, it is priced at its base price with no applied discount. *)
Theorem product_create_then_find newId dto db now :
  plain (cp_name dto) = true -> plain (cp_sku dto) = true ->
  plain (cp_slug dto) = true ->
  BaseRepository.findById p_id newId (products db) = None ->
  ProductRepository.findBySku (cp_sku dto) db = None ->
  ProductRepository.findBySlug (cp_slug dto) db = None ->
  (forall l, In l (productDiscounts db) -> pd_productId l <> newId) ->
  exists db',
    create newId dto db = (Ok (newProduct newId dto), db') /\
    (forall slug, plain slug = true ->
       toLowerCase slug = toLowerCase (cp_slug dto) ->
       ProductRepository.findBySlug slug db' = Some (newProduct newId dto)) /\
    (forall sku, plain sku = true ->
       toUpperCase sku = toUpperCase (cp_sku dto) ->
       ProductRepository.findBySku sku db' = Some (newProduct newId dto)) /\
    exists r,
      ProductsService.findOne db' now newId = Ok r /\
      r_id r = newId /\ r_sku r = toUpperCase (cp_sku dto) /\
      r_slug r = toLowerCase (cp_slug dto) /\
      r_basePrice r = cp_basePrice dto /\
      r_finalPrice r = Some (cp_basePrice dto) /\
      r_appliedDiscounts r = None.
Proof.
  intros _ _ _ Hfresh Hsku Hslug Hlinks.
  eexists. split.
  { unfold create, bind, query, throw, exec, onProducts, BaseRepository.create.
    rewrite Hsku, Hslug. reflexivity. }
  set (doc := newProduct newId dto).
  set (db' := mkDb (products db ++ [doc]) (discounts db) (productDiscounts db)).
  split; [|split].
  - intros slug _ E. unfold ProductRepository.findBySlug, BaseRepository.findOne in *.
    cbn [products db']. rewrite ManagementMore.find_snoc, E, Hslug.
    simpl. rewrite String.eqb_refl. reflexivity.
  - intros sku _ E. unfold ProductRepository.findBySku, BaseRepository.findOne in *.
    cbn [products db']. rewrite ManagementMore.find_snoc, E, Hsku.
    simpl. rewrite String.eqb_refl. reflexivity.
  - exists (ProductsService.calculateProductPricing db' now doc).
    split.
    { unfold ProductsService.findOne, BaseRepository.findById in *.
      cbn [products db']. rewrite ManagementMore.find_snoc, Hfresh.
      simpl. rewrite String.eqb_refl. reflexivity. }
    assert (Hnone : ProductDiscountRepository.findByProduct (p_id doc) db' = []).
    { unfold ProductDiscountRepository.findByProduct, BaseRepository.findAll.
      cbn [productDiscounts db']. simpl p_id.
      induction (productDiscounts db) as [|l ls IH]; simpl; [reflexivity|].
      assert (El : String.eqb (pd_productId l) newId = false)
        by (apply String.eqb_neq, Hlinks; now left).
      rewrite El. simpl. apply IH. intros x Hx. apply Hlinks. now right. }
    unfold ProductsService.calculateProductPricing. rewrite Hnone.
    repeat split.
Qed.

Lemma product_create_then_find_witness :
  exists db',
    create "p9" ScenarioMore.speaker Scenario.dbTwo
      = (Ok (newProduct "p9" ScenarioMore.speaker), db') /\
    ProductRepository.findBySlug "PORTABLE-speaker" db'
      = Some (newProduct "p9" ScenarioMore.speaker).
Proof.
  destruct (product_create_then_find "p9" ScenarioMore.speaker Scenario.dbTwo Scenario.now)
    as (db' & Hc & Hslug & _).
  - reflexivity.
  - reflexivity.
  - reflexivity.
  - reflexivity.
  - reflexivity.
  - reflexivity.
  - intros l [<-|[<-|[<-|[]]]]; discriminate.
  - exists db'. split; [exact Hc|]. apply Hslug; reflexivity.
Defined.









Lemma In_page {A} (x : A) (n k : nat) (l : list A) :
  In x (firstn n (skipn k l)) -> In x l.
Proof.
  revert n l. induction k as [|k IHk]; intros n l.
  - simpl. revert l. induction n as [|n IHn]; intros l H; simpl in H; [contradiction|].
    destruct l as [|a l]; simpl in H; [contradiction|].
    destruct H as [H|H]; [left; exact H|right; exact (IHn l H)].
  - destruct l as [|a l]; simpl.
    + destruct n; simpl; tauto.
    + intro H. right. exact (IHk n l H).
Qed.

Section Listing.
Variable sort : list Product -> list Product.
Hypothesis sort_incl : forall l x, In x (sort l) -> In x l.

(** X29.  [findAll] never lists an inactive product: every item of a page is
    the pricing of a stored active product, and [total] in the [meta] is the
    number of active products, whatever the page. *)
Theorem findAll_lists_active_only now page limit db :
  (forall r, In r (fst (findAll sort now page limit db)) ->
     exists p, In p (products db) /\ p_isActive p = true /\
               r = ProductsService.calculateProductPricing db now p) /\
  m_total (snd (findAll sort now page limit db))
    = Z.of_nat (List.length (List.filter p_isActive (products db))).
Proof.
  unfold findAll, Pagination.findWithPagination. cbn [fst snd]. split.
  - intros r Hr. apply in_map_iff in Hr. destruct Hr as (p & <- & Hp).
    apply In_page, sort_incl, filter_In in Hp. destruct Hp as [Hin Ha].
    exists p. auto.
  - reflexivity.
Qed.
End Listing.

Lemma findAll_lists_active_only_witness :
  m_total (snd (findAll (@rev Product) Scenario.now 1 10 Scenario.dbTwo)) = 2%Z.
Proof.
  destruct (findAll_lists_active_only (@rev Product)
              (fun l x H => proj2 (in_rev l x) H) Scenario.now 1 10 Scenario.dbTwo)
    as [_ H].
  rewrite H. reflexivity.
Defined.

End ProductsMore.
